(** * True Runtime Profiler: a shallow embedding of [true_runtime_profiler.py]

    The development follows the source file top to bottom:
    - the fragment of Python the profiler relies on (strings, values,
      [repr], [eval], exceptions);
    - a small state-and-exception monad for the calls that touch the
      outside world (printing, the collector process, the file system);
    - the profiler itself: [_get_input_for_function],
      [profile_function_in_runtime], [profile_full_python] and [main];
    - the properties of the specification, stated on those definitions. *)

From Stdlib Require Import ZArith NArith String Ascii List Bool Lia.
From Stdlib Require Import Decimal DecimalString DecimalFacts DecimalPos DecimalZ.
From stdpp Require Import base option list gmap strings.

Local Open Scope Z_scope.
Set Warnings "-register-all".

(* ===================================================================== *)
(** ** Characters and strings                                             *)
(* ===================================================================== *)

(** A Python [str] is modelled as a Rocq [string]; each character stands
    for the code point with the same number (0 to 255). *)

Definition chr (n : N) : ascii := ascii_of_N n.
Definition ord (c : ascii) : N := N_of_ascii c.

Definition NUL : ascii := chr 0.
Definition TAB : ascii := chr 9.
Definition LF : ascii := chr 10.
Definition CR : ascii := chr 13.
Definition BACKSLASH : ascii := chr 92.
Definition SQUOTE : ascii := chr 39.
Definition DQUOTE : ascii := chr 34.

Definition NL : string := String LF EmptyString.

(** [str.isspace] on code points below 256. *)
Definition is_space (c : ascii) : bool :=
  let n := ord c in
  ((9 <=? n) && (n <=? 13) || (28 <=? n) && (n <=? 32)
   || (n =? 133) || (n =? 160))%N.

Definition is_digit (c : ascii) : bool :=
  let n := ord c in ((48 <=? n) && (n <=? 57))%N.

Definition is_alpha (c : ascii) : bool :=
  let n := ord c in
  ((65 <=? n) && (n <=? 90) || (97 <=? n) && (n <=? 122) || (n =? 95))%N.

(** Characters that continue an identifier or a number token. *)
Definition is_word (c : ascii) : bool := is_alpha c || is_digit c.

Fixpoint lstrip (s : string) : string :=
  match s with
  | EmptyString => EmptyString
  | String c s' => if is_space c then lstrip s' else s
  end.

(** [rstrip] drops the longest all-space suffix. *)
Fixpoint rstrip (s : string) : string :=
  match s with
  | EmptyString => EmptyString
  | String c s' =>
      match rstrip s' with
      | EmptyString => if is_space c then EmptyString else String c EmptyString
      | r => String c r
      end
  end.

(** [s.strip()] *)
Definition strip (s : string) : string := rstrip (lstrip s).

(** [s.startswith(p)] *)
Fixpoint startswith (p s : string) : bool :=
  match p, s with
  | EmptyString, _ => true
  | String a p', String b s' => Ascii.eqb a b && startswith p' s'
  | String _ _, EmptyString => false
  end.

(** [p in s] on strings. *)
Fixpoint contains (p s : string) : bool :=
  startswith p s ||
  match s with
  | EmptyString => false
  | String _ s' => contains p s'
  end.

Fixpoint drop_chars (n : nat) (s : string) : string :=
  match n, s with
  | O, _ => s
  | S n', String _ s' => drop_chars n' s'
  | S _, EmptyString => EmptyString
  end.

(** [s.split(sep, 1)] for a non-empty separator: the text before the first
    occurrence and the text after it, or [s] alone when there is none. *)
Fixpoint split_once_aux (sep s : string) (before : string -> string)
  : list string :=
  if startswith sep s then
    [before EmptyString; drop_chars (String.length sep) s]
  else
    match s with
    | EmptyString => [before EmptyString]
    | String c s' => split_once_aux sep s' (fun t => before (String c t))
    end.

Definition split_once (sep s : string) : list string :=
  split_once_aux sep s (fun t => t).

(** [sep.join(parts)] *)
Fixpoint join (sep : string) (parts : list string) : string :=
  match parts with
  | [] => EmptyString
  | [p] => p
  | p :: ps => p +:+ sep +:+ join sep ps
  end.

(** ['='*n] and the like. *)
Fixpoint repeat_char (c : ascii) (n : nat) : string :=
  match n with
  | O => EmptyString
  | S n' => String c (repeat_char c n')
  end.

(** Decimal text of an integer, as [str(n)] and [repr(n)] give it. *)
Definition str_int (z : Z) : string := NilZero.string_of_int (Z.to_int z).

(* ===================================================================== *)
(** ** Python values, [repr] and [eval]                                   *)
(* ===================================================================== *)

(** The values a handler exchanges with the profiler.  Dictionaries keep
    their insertion order and are keyed by strings, as the input payloads
    of the table below are.  [PObj r] is an object of any other class (a
    float, a tuple, a dictionary with other keys, an instance of a class of
    the workload); [r] is the text its [__repr__] returns, and its [str]
    and truth value are taken to be the defaults ([str] is [repr], the
    object is true).  Writing a value with [repr] or [str] is taken to
    succeed: the limits of the interpreter on that side (no conversion of an
    integer of more than 4300 digits since CPython 3.11, the recursion limit
    on a deeply nested value) are not modelled; on the reading side they
    are, see [within_limits]. *)
Inductive pyval : Type :=
| PNone
| PBool (b : bool)
| PInt (z : Z)
| PStr (s : string)
| PList (l : list pyval)
| PDict (kvs : list (string * pyval))
| PObj (r : string).

(** Truth value of an object, as [if x:] tests it. *)
Definition truthy (v : pyval) : bool :=
  match v with
  | PNone => false
  | PBool b => b
  | PInt z => negb (z =? 0)
  | PStr s => negb (String.eqb s EmptyString)
  | PList l => match l with [] => false | _ => true end
  | PDict kvs => match kvs with [] => false | _ => true end
  | PObj _ => true
  end.

(** [x is not None] *)
Definition is_not_None (v : pyval) : bool :=
  match v with PNone => false | _ => true end.

(** *** [repr] *)

Fixpoint has_char (c : ascii) (s : string) : bool :=
  match s with
  | EmptyString => false
  | String a s' => Ascii.eqb a c || has_char c s'
  end.

(** Double quotes are used only when the text has a single quote and no
    double quote. *)
Definition repr_quote (s : string) : ascii :=
  if has_char SQUOTE s && negb (has_char DQUOTE s) then DQUOTE else SQUOTE.

Definition hex_digit (n : N) : ascii :=
  if (n <? 10)%N then chr (48 + n) else chr (87 + n).

(** Code points that [repr] writes as a hexadecimal escape. *)
Definition is_unprintable (c : ascii) : bool :=
  let n := ord c in
  ((n <? 32) || (n =? 127) || (128 <=? n) && (n <=? 160) || (n =? 173))%N.

Definition repr_char (q c : ascii) : string :=
  if Ascii.eqb c q || Ascii.eqb c BACKSLASH then
    String BACKSLASH (String c EmptyString)
  else if Ascii.eqb c TAB then String BACKSLASH "t"
  else if Ascii.eqb c LF then String BACKSLASH "n"
  else if Ascii.eqb c CR then String BACKSLASH "r"
  else if is_unprintable c then
    String BACKSLASH
      (String "x" (String (hex_digit (ord c / 16))
                     (String (hex_digit (ord c mod 16)) EmptyString)))
  else String c EmptyString.

Fixpoint repr_body (q : ascii) (s : string) : string :=
  match s with
  | EmptyString => EmptyString
  | String c s' => repr_char q c +:+ repr_body q s'
  end.

Definition repr_str (s : string) : string :=
  let q := repr_quote s in
  String q (repr_body q s +:+ String q EmptyString).

Fixpoint py_repr (v : pyval) : string :=
  match v with
  | PNone => "None"
  | PBool true => "True"
  | PBool false => "False"
  | PInt z => str_int z
  | PStr s => repr_str s
  | PList l => "[" +:+ join ", " (List.map py_repr l) +:+ "]"
  | PDict kvs =>
      "{" +:+ join ", "
               (List.map (fun kv => repr_str (fst kv) +:+ ": " +:+ py_repr (snd kv))
                         kvs) +:+ "}"
  | PObj r => r
  end.

(** [str(x)], which is what an f-string field [{x}] inserts. *)
Definition py_str (v : pyval) : string :=
  match v with
  | PStr s => s
  | _ => py_repr v
  end.

(** *** [eval]

    [read_display] reads the displays [repr] writes for the values above:
    [None], [True], [False], decimal integers with an optional minus sign,
    quoted strings with backslash escapes, list displays and dictionary
    displays with string keys.  It answers [None] on any other text
    (arithmetic, names, calls, floats, tuples, sets, string prefixes, ...),
    which says nothing about what [eval] does there: [py_eval] below asks the
    interpreter's scope in that case. *)

Fixpoint span (p : ascii -> bool) (s : string) : string * string :=
  match s with
  | EmptyString => (EmptyString, EmptyString)
  | String c s' =>
      if p c then let '(a, b) := span p s' in (String c a, b)
      else (EmptyString, s)
  end.

(** Blanks between tokens; line ends count only inside brackets. *)
Definition is_blank (inside : bool) (c : ascii) : bool :=
  Ascii.eqb c " " || Ascii.eqb c TAB || Ascii.eqb c (chr 12)
  || inside && (Ascii.eqb c LF || Ascii.eqb c CR).

Fixpoint skip_blank (inside : bool) (s : string) : string :=
  match s with
  | EmptyString => EmptyString
  | String c s' => if is_blank inside c then skip_blank inside s' else s
  end.

Definition hex_val (c : ascii) : option N :=
  let n := ord c in
  if ((48 <=? n) && (n <=? 57))%N then Some (n - 48)%N
  else if ((97 <=? n) && (n <=? 102))%N then Some (n - 87)%N
  else if ((65 <=? n) && (n <=? 70))%N then Some (n - 55)%N
  else None.

(** The one-letter escapes of a string literal. *)
Definition simple_escape (e : ascii) : option ascii :=
  if Ascii.eqb e BACKSLASH then Some BACKSLASH
  else if Ascii.eqb e SQUOTE then Some SQUOTE
  else if Ascii.eqb e DQUOTE then Some DQUOTE
  else if Ascii.eqb e "n" then Some LF
  else if Ascii.eqb e "r" then Some CR
  else if Ascii.eqb e "t" then Some TAB
  else if Ascii.eqb e "a" then Some (chr 7)
  else if Ascii.eqb e "b" then Some (chr 8)
  else if Ascii.eqb e "f" then Some (chr 12)
  else if Ascii.eqb e "v" then Some (chr 11)
  else None.

Definition prepend (c : ascii) (r : option (string * string))
  : option (string * string) :=
  match r with
  | Some (t, rest) => Some (String c t, rest)
  | None => None
  end.

(** The body of a string literal opened by quote [q]: the decoded text and
    what follows the closing quote. *)
Fixpoint parse_str (q : ascii) (s : string) : option (string * string) :=
  match s with
  | EmptyString => None
  | String c s1 =>
      if Ascii.eqb c q then Some (EmptyString, s1)
      else if Ascii.eqb c LF || Ascii.eqb c CR || Ascii.eqb c NUL then None
      else if Ascii.eqb c BACKSLASH then
        match s1 with
        | EmptyString => None
        | String e s2 =>
            if Ascii.eqb e "x" then
              match s2 with
              | String h1 (String h2 s3) =>
                  match hex_val h1, hex_val h2 with
                  | Some a, Some b => prepend (chr (16 * a + b)) (parse_str q s3)
                  | _, _ => None
                  end
              | _ => None
              end
            else
              match simple_escape e with
              | Some d => prepend d (parse_str q s2)
              | None => None
              end
        end
      else prepend c (parse_str q s1)
  end.

Fixpoint all_chars (p : ascii -> bool) (s : string) : bool :=
  match s with
  | EmptyString => true
  | String c s' => p c && all_chars p s'
  end.

Definition starts_with_char (p : ascii -> bool) (s : string) : bool :=
  match s with
  | EmptyString => false
  | String c _ => p c
  end.

(** A decimal integer literal at the head of [s].  A literal may not have
    a leading zero unless it is all zeros, and may not run into a letter,
    a digit separator or a decimal point. *)
Definition parse_number (neg : bool) (s : string) : option (pyval * string) :=
  let '(ds, rest) := span is_digit s in
  if starts_with_char (fun c => is_word c || Ascii.eqb c ".") rest then None
  else if starts_with_char (Ascii.eqb "0") ds
          && negb (all_chars (Ascii.eqb "0") ds) then None
  else
    match NilEmpty.uint_of_string ds with
    | Some u =>
        let n := Z.of_uint u in
        Some (PInt (if neg then - n else n), rest)
    | None => None
    end.

(** [d[k] = v] on an insertion-ordered dictionary. *)
Fixpoint dict_set (k : string) (v : pyval) (kvs : list (string * pyval))
  : list (string * pyval) :=
  match kvs with
  | [] => [(k, v)]
  | (k', v') :: rest =>
      if String.eqb k' k then (k', v) :: rest
      else (k', v') :: dict_set k v rest
  end.

Definition dict_of_pairs (kvs : list (string * pyval)) : list (string * pyval) :=
  fold_left (fun d kv => dict_set (fst kv) (snd kv) d) kvs [].

Fixpoint parse_value (fuel : nat) (inside : bool) (s : string)
  : option (pyval * string) :=
  match fuel with
  | O => None
  | S f =>
      match skip_blank inside s with
      | EmptyString => None
      | String c s1 =>
          if Ascii.eqb c "[" then
            match parse_items f s1 with
            | Some (l, rest) => Some (PList l, rest)
            | None => None
            end
          else if Ascii.eqb c "{" then
            match parse_pairs f s1 with
            | Some (kvs, rest) => Some (PDict (dict_of_pairs kvs), rest)
            | None => None
            end
          else if Ascii.eqb c SQUOTE || Ascii.eqb c DQUOTE then
            match parse_str c s1 with
            | Some (t, rest) => Some (PStr t, rest)
            | None => None
            end
          else if is_digit c then parse_number false (String c s1)
          else if Ascii.eqb c "-" then
            let s2 := skip_blank inside s1 in
            if starts_with_char is_digit s2 then parse_number true s2 else None
          else if is_alpha c then
            let '(w, rest) := span is_word (String c s1) in
            if String.eqb w "None" then Some (PNone, rest)
            else if String.eqb w "True" then Some (PBool true, rest)
            else if String.eqb w "False" then Some (PBool false, rest)
            else None
          else None
      end
  end

(** The elements of a list display, after the opening bracket or after a
    comma, up to the closing bracket. *)
with parse_items (fuel : nat) (s : string) : option (list pyval * string) :=
  match fuel with
  | O => None
  | S f =>
      match skip_blank true s with
      | EmptyString => None
      | String c s1 =>
          if Ascii.eqb c "]" then Some ([], s1)
          else
            match parse_value f true (String c s1) with
            | Some (v, r1) =>
                match skip_blank true r1 with
                | String d r2 =>
                    if Ascii.eqb d "," then
                      match parse_items f r2 with
                      | Some (vs, r3) => Some (v :: vs, r3)
                      | None => None
                      end
                    else if Ascii.eqb d "]" then Some ([v], r2)
                    else None
                | EmptyString => None
                end
            | None => None
            end
      end
  end

(** The entries of a dictionary display, in the order written. *)
with parse_pairs (fuel : nat) (s : string)
  : option (list (string * pyval) * string) :=
  match fuel with
  | O => None
  | S f =>
      match skip_blank true s with
      | EmptyString => None
      | String c s1 =>
          if Ascii.eqb c "}" then Some ([], s1)
          else if Ascii.eqb c SQUOTE || Ascii.eqb c DQUOTE then
            match parse_str c s1 with
            | Some (k, r1) =>
                match skip_blank true r1 with
                | String d r2 =>
                    if Ascii.eqb d ":" then
                      match parse_value f true r2 with
                      | Some (v, r3) =>
                          match skip_blank true r3 with
                          | String e r4 =>
                              if Ascii.eqb e "," then
                                match parse_pairs f r4 with
                                | Some (kvs, r5) => Some ((k, v) :: kvs, r5)
                                | None => None
                                end
                              else if Ascii.eqb e "}" then Some ([(k, v)], r4)
                              else None
                          | EmptyString => None
                          end
                      | None => None
                      end
                    else None
                | EmptyString => None
                end
            | None => None
            end
          else None
      end
  end.

(** One display and nothing after it. *)
Definition read_display (s : string) : option pyval :=
  match parse_value (S (2 * String.length s)) false s with
  | Some (v, rest) =>
      match skip_blank false rest with
      | EmptyString => Some v
      | _ => None
      end
  | None => None
  end.

(** The limits within which every interpreter reads a display: an
    integer of at most 4300 decimal digits (the default bound of integer
    conversion since CPython 3.11) and brackets nested at most [budget]
    deep (the tokenizer of CPython 3.9 and later gives up beyond 200 levels,
    the parsers before it somewhat below 100). *)
Fixpoint within_depth (budget : nat) (v : pyval) {struct budget} : bool :=
  match v with
  | PInt z => Z.abs z <? 10 ^ 4300
  | PList l =>
      match budget with
      | O => false
      | S b => forallb (within_depth b) l
      end
  | PDict kvs =>
      match budget with
      | O => false
      | S b => forallb (fun kv => within_depth b (snd kv)) kvs
      end
  | _ => true
  end.

Definition within_limits (v : pyval) : bool := within_depth 64 v.

(** [eval(s)] where the names in scope are those of [scope]: a display
    within the limits denotes its value in every scope; for any other text
    [scope s] is the value of the expression, or [None] when evaluating it
    raises (SyntaxError, NameError, ...).  Effects of the expression other
    than its value are not modelled. *)
Definition py_eval (scope : string -> option pyval) (s : string)
  : option pyval :=
  match read_display s with
  | Some v => if within_limits v then Some v else scope s
  | None => scope s
  end.

(* ===================================================================== *)
(** ** Exceptions, the outside world and the effect monad                 *)
(* ===================================================================== *)

(** The argument of [SystemExit]: none ([sys.exit()]), an integer, or any
    other object, known by its [str]. *)
Inductive exit_arg : Type :=
| ExitNone
| ExitInt (n : Z)
| ExitMsg (msg : string).

(** The exception classes the profiler tells apart: [subprocess.TimeoutExpired],
    any other subclass of [Exception] (by its [str]), and [SystemExit], a
    [BaseException] that [except Exception] does not catch. *)
Inductive pyexc : Type :=
| Exception (msg : string)
| TimeoutExpired (cmd : list string) (timeout : Z)
| SystemExit (code : exit_arg).

(** [isinstance(e, Exception)] *)
Definition is_Exception (e : pyexc) : bool :=
  match e with
  | SystemExit _ => false
  | _ => true
  end.

(** [isinstance(e, subprocess.TimeoutExpired)] *)
Definition is_TimeoutExpired (e : pyexc) : bool :=
  match e with
  | TimeoutExpired _ _ => true
  | _ => false
  end.

(** [str(e)] *)
Definition str_exc (e : pyexc) : string :=
  match e with
  | Exception msg => msg
  | TimeoutExpired cmd timeout =>
      "Command '" +:+ py_repr (PList (List.map PStr cmd))
      +:+ "' timed out after " +:+ str_int timeout +:+ " seconds"
  | SystemExit ExitNone => EmptyString
  | SystemExit (ExitInt n) => str_int n
  | SystemExit (ExitMsg msg) => msg
  end.

(** How the interpreter ends on an uncaught [SystemExit]: the exit status
    is 0 without argument, the low eight bits of an integer argument (of -1
    when it does not fit a C long), and 1 for any other argument, whose
    [str] is then written on standard error. *)
Definition exit_status (code : exit_arg) : Z :=
  match code with
  | ExitNone => 0
  | ExitInt n =>
      if (- 2 ^ 63 <=? n) && (n <? 2 ^ 63) then n mod 256 else 255
  | ExitMsg _ => 1
  end.

Definition exit_text (code : exit_arg) : string :=
  match code with
  | ExitMsg msg => msg +:+ NL
  | _ => EmptyString
  end.

Inductive result (A : Type) : Type :=
| Ok (a : A)
| Raise (e : pyexc).
Arguments Ok {A} a.
Arguments Raise {A} e.

Inductive signal : Type := SIGINT | SIGTERM.

Inductive proc_state : Type := Running | Exited.

(** What the profiler asks of the operating system, in order. *)
Inductive event : Type :=
| EvPopen (cmd : list string)
| EvSleep (secs : Z)
| EvCall (path : string) (input : pyval)
| EvSendSignal (sig : signal)
| EvWait (timeout : Z)
| EvCreate (path : string)
| EvRun (cmd : list string) (timeout : Z)
| EvUnlink (path : string).

(** The state the profiler acts on: the lines its own [print] calls wrote,
    the transient scripts present on disk with their text, the collector
    started by [Popen] ([None] while [strace_proc] is [None]) and the log of
    requests. *)
Record world : Type := mkWorld {
  out : list string;
  fs : gmap string string;
  collector : option proc_state;
  log : list event
}.

Definition set_out (f : list string -> list string) (w : world) : world :=
  mkWorld (f (out w)) (fs w) (collector w) (log w).
Definition set_fs (f : gmap string string -> gmap string string) (w : world) : world :=
  mkWorld (out w) (f (fs w)) (collector w) (log w).
Definition set_collector (c : option proc_state) (w : world) : world :=
  mkWorld (out w) (fs w) c (log w).
Definition add_event (ev : event) (w : world) : world :=
  mkWorld (out w) (fs w) (collector w) (log w ++ [ev]).

Definition M (A : Type) : Type := world -> result A * world.

Definition ret {A} (a : A) : M A := fun w => (Ok a, w).

Definition raise {A} (e : pyexc) : M A := fun w => (Raise e, w).

Definition bind {A B} (m : M A) (k : A -> M B) : M B :=
  fun w =>
    match m w with
    | (Ok a, w') => k a w'
    | (Raise e, w') => (Raise e, w')
    end.

#[global] Instance M_ret : MRet M := @ret.
#[global] Instance M_bind : MBind M := fun A B k m => bind m k.

(** [try: body / except C as e: handler e], where [catches e] tells whether
    [e] is an instance of [C]. *)
Definition try_except {A} (body : M A) (catches : pyexc -> bool)
  (handler : pyexc -> M A) : M A :=
  fun w =>
    match body w with
    | (Ok a, w') => (Ok a, w')
    | (Raise e, w') => if catches e then handler e w' else (Raise e, w')
    end.

(** [try: body / finally: fin]: [fin] runs on every exit of [body], also
    when [body] returns or raises. *)
Definition try_finally {A} (body : M A) (fin : M unit) : M A :=
  fun w =>
    match body w with
    | (r, w') =>
        match fin w' with
        | (Ok _, w'') => (r, w'')
        | (Raise e, w'') => (Raise e, w'')
        end
    end.

(** A bare [except:] catches everything. *)
Definition any_exception (e : pyexc) : bool := true.

Definition print (line : string) : M unit :=
  fun w => (Ok tt, set_out (fun o => o ++ [line]) w).

Definition emit (ev : event) : M unit :=
  fun w => (Ok tt, add_event ev w).

Definition get_world : M world := fun w => (Ok w, w).

Definition modify (f : world -> world) : M unit := fun w => (Ok tt, f w).

Definition maybe_raise (o : option pyexc) : M unit :=
  match o with
  | Some e => raise e
  | None => ret tt
  end.

(** *** The traced workload *)

(** One run of "load the module at [path] and call its [handler]":
    what it wrote on its standard streams and how it ended.  The handler is
    taken to leave its argument as it received it: for a name of the table
    the source passes the table's own dictionary (lines 60 and 107), so a
    handler that writes into its event would change what later calls
    receive and what the result shows as [input_data]; this is not
    modelled. *)
Record workload_run : Type := mkRun {
  w_stdout : string;
  w_stderr : string;
  w_result : result pyval
}.

Definition workload : Type := string -> pyval -> workload_run.

(** *** The collector process in attach mode *)

(** What the operating system answers during one attach-mode call. *)
Record attach_env : Type := mkAttachEnv {
  a_pid : Z;                       (* os.getpid() *)
  a_popen : option pyexc;          (* Popen raises, e.g. strace missing *)
  a_workload : workload;           (* the function under test *)
  a_send_signal : option pyexc;    (* send_signal raises *)
  a_exits_on_sigint : bool;        (* the collector exits within 10 s *)
  a_terminate : option pyexc;      (* terminate raises *)
  a_exits_on_terminate : bool      (* the collector exits within 5 s *)
}.

Definition Popen (e : attach_env) (cmd : list string) : M unit :=
  emit (EvPopen cmd) ;;
  maybe_raise (a_popen e) ;;
  modify (set_collector (Some Running)).

Definition sleep (secs : Z) : M unit := emit (EvSleep secs).

(** [spec.loader.exec_module(func_module)] and [func_module.handler(input)] *)
Definition load_and_call (wl : workload) (path : string) (input : pyval)
  : M pyval :=
  emit (EvCall path input) ;;
  match w_result (wl path input) with
  | Ok v => ret v
  | Raise e => raise e
  end.

Definition send_signal (e : attach_env) (sig : signal) : M unit :=
  emit (EvSendSignal sig) ;;
  maybe_raise (a_send_signal e).

(** [strace_proc.wait(timeout=t)]: returns once the collector has exited,
    raises [TimeoutExpired] otherwise. *)
Definition wait (exits : bool) (cmd : list string) (t : Z) : M unit :=
  emit (EvWait t) ;;
  if exits then modify (set_collector (Some Exited))
  else raise (TimeoutExpired cmd t).

Definition terminate (e : attach_env) : M unit :=
  emit (EvSendSignal SIGTERM) ;;
  maybe_raise (a_terminate e).

(** [strace_proc] is truthy once [Popen] has returned. *)
Definition proc_started (w : world) : bool :=
  match collector w with Some _ => true | None => false end.

(** [strace_proc and strace_proc.poll() is None] *)
Definition proc_running (w : world) : bool :=
  match collector w with Some Running => true | _ => false end.

(** *** Spawn mode: [subprocess.run] and the transient script *)

Record CompletedProcess : Type := mkCompleted {
  returncode : Z;
  stdout : string;
  stderr : string
}.

(** What the operating system and the interpreter answer during one
    spawn-mode call. *)
Record spawn_env : Type := mkSpawnEnv {
  s_tmp : string;                          (* temp_script.name *)
  s_write : option pyexc;                  (* writing the script raises *)
  s_run_summary : result CompletedProcess; (* first subprocess.run *)
  s_run_full : result CompletedProcess;    (* second subprocess.run *)
  s_eval : string -> option pyval          (* eval on other than displays *)
}.

(** [tempfile.NamedTemporaryFile(mode='w', suffix='.py', delete=False)]
    with the write of the script inside the [with] block: the file exists
    from the moment it is opened, and holds the text once written. *)
Definition write_temp_script (e : spawn_env) (script_content : string) : M string :=
  emit (EvCreate (s_tmp e)) ;;
  modify (set_fs (insert (s_tmp e) EmptyString)) ;;
  maybe_raise (s_write e) ;;
  modify (set_fs (insert (s_tmp e) script_content)) ;;
  ret (s_tmp e).

(** [subprocess.run(cmd, capture_output=True, text=True, timeout=t)] *)
Definition subprocess_run (r : result CompletedProcess) (cmd : list string)
  (t : Z) : M CompletedProcess :=
  emit (EvRun cmd t) ;;
  match r with
  | Ok cp => ret cp
  | Raise e => raise e
  end.

(** [os.unlink(path)] *)
Definition unlink (path : string) : M unit :=
  emit (EvUnlink path) ;;
  w ← get_world ;
  if bool_decide (is_Some (fs w !! path)) then modify (set_fs (delete path))
  else raise (Exception ("[Errno 2] No such file or directory: "
                         +:+ repr_str path)).

(* ===================================================================== *)
(** ** The profiler                                                       *)
(* ===================================================================== *)

(** A result dictionary, keyed by field name. *)
Abbreviation result_dict := (gmap string pyval).

Definition mkdict (fields : list (string * pyval)) : result_dict :=
  list_to_map fields.

(** [d[k]], raising [KeyError] when [k] is missing. *)
Definition getitem (d : result_dict) (k : string) : M pyval :=
  match d !! k with
  | Some v => ret v
  | None => raise (Exception (repr_str k))
  end.

(** [self.correct_inputs] *)
Definition correct_inputs : gmap string pyval :=
  list_to_map [
    ("110.dynamic-html", PDict [("username", PStr "testuser"); ("random_len", PInt 10)]);
    ("130.crud-api", PDict [("action", PStr "get"); ("id", PStr "1")]);
    ("210.thumbnailer", PDict [("image", PStr "test.jpg"); ("size", PInt 100)]);
    ("220.video-processing", PDict [("video", PStr "test.mp4")]);
    ("311.compression", PDict [("text", PStr "Hello World")]);
    ("411.image-recognition", PDict [("image", PStr "test.jpg")]);
    ("503.graph-bfs", PDict [("size", PInt 10)]);
    ("501.graph-pagerank", PDict [("size", PInt 10)]);
    ("504.dna-visualisation", PDict [("sequence", PStr "ATCGATCG")]);
    ("502.graph-mst", PDict [("size", PInt 10)]);
    ("020.network-benchmark", PDict [("port", PInt 8080)]);
    ("030.clock-synchronization", PDict [("time", PStr "12:00:00")]);
    ("040.server-reply", PDict [("message", PStr "hello")]);
    ("010.sleep", PDict [("sleep_time", PInt 1)]);
    ("120.uploader", PDict [("file", PStr "test.txt"); ("content", PStr "hello world")])
  ].

(** An entry of [self.functions]. *)
Record function_info : Type := mkFunction {
  name : string;
  category : string;
  function_path : string;
  input_path : string
}.

(** [_discover_functions], given the paths that
    [benchmarks_dir.rglob("*/python/function.py")] yields, each as its
    [parts]. *)
Definition _discover_functions (found : list (list string)) : list function_info :=
  flat_map
    (fun parts =>
       if (4 <=? length parts)%nat then
         [ {| name := nth 2 parts EmptyString;
              category := nth 1 parts EmptyString;
              function_path := join "/" parts;
              input_path := join "/" (removelast parts ++ ["input.py"]) |} ]
       else [])
    found.

(** [_get_input_for_function]: [self.correct_inputs.get(function_name, {'data': 'test'})] *)
Definition _get_input_for_function (function_name : string) : pyval :=
  default (PDict [("data", PStr "test")]) (correct_inputs !! function_name).

(** [profile_function_in_runtime] *)
Definition profile_function_in_runtime (e : attach_env)
  (function_info : function_info) (summary : bool) : M result_dict :=
  let function_path := function_path function_info in
  let function_name := name function_info in
  let input_data := _get_input_for_function function_name in
  let mode_str := if summary then "summary" else "full" in
  print ("=== Profiling " +:+ function_name +:+ " in current runtime ("
         +:+ mode_str +:+ ") ===") ;;
  print ("Function path: " +:+ function_path) ;;
  print ("Input data: " +:+ py_str input_data) ;;
  let current_pid := a_pid e in
  let strace_file :=
    if summary then "runtime_summary_" +:+ function_name +:+ ".txt"
    else "runtime_full_" +:+ function_name +:+ ".txt" in
  let strace_cmd :=
    if summary then ["strace"; "-c"; "-p"; str_int current_pid; "-o"; strace_file]
    else ["strace"; "-p"; str_int current_pid; "-o"; strace_file] in
  modify (set_collector None) ;;        (* strace_proc = None *)
  try_finally
    (try_except
       (Popen e strace_cmd ;;
        sleep 1 ;;
        (* profiled section: function loading and execution *)
        outcome ← try_except
                     (v ← load_and_call (a_workload e) function_path input_data ;
                      ret (v, PNone))
                     is_Exception
                     (fun ex => ret (PNone, PStr (str_exc ex))) ;
        let function_result := fst outcome in
        let error_msg := snd outcome in
        (* stop strace process *)
        w ← get_world ;
        (if proc_started w then
           send_signal e SIGINT ;;
           wait (a_exits_on_sigint e) strace_cmd 10
         else ret tt) ;;
        print ("Runtime strace file saved: " +:+ strace_file) ;;
        ret (mkdict [("function_name", PStr function_name);
                     ("profiling_mode", PStr ("runtime_" +:+ mode_str));
                     ("success", PBool true);
                     ("function_result", function_result);
                     ("error", error_msg);
                     ("input_data", input_data);
                     ("strace_file", PStr strace_file)]))
       is_Exception
       (fun ex =>
          ret (mkdict [("function_name", PStr function_name);
                       ("profiling_mode", PStr ("runtime_" +:+ mode_str));
                       ("success", PBool false);
                       ("error", PStr (str_exc ex));
                       ("input_data", input_data)])))
    (* cleanup *)
    (w ← get_world ;
     if proc_running w then
       try_except
         (terminate e ;;
          wait (a_exits_on_terminate e) strace_cmd 5)
         any_exception
         (fun _ => ret tt)
     else ret tt).

(** Lines 216-234 of [profile_full_python]: the function's outcome as read
    from the summary run, as the pair [(function_result, error_msg)]. *)
Definition parse_function_output (scope : string -> option pyval)
  (result_summary : CompletedProcess) : pyval * pyval :=
  if returncode result_summary =? 0 then
    let output_line := strip (stdout result_summary) in
    if negb (String.eqb output_line EmptyString)
       && negb (startswith "ERROR:" output_line) then
      match py_eval scope output_line with
      | Some v => (v, PNone)
      | None => (PNone, PNone)          (* except: pass *)
      end
    else (PNone, PNone)
  else
    if negb (String.eqb (stdout result_summary) EmptyString)
       && startswith "ERROR:" (stdout result_summary) then
      (PNone, PStr (strip (nth 1 (split_once "ERROR:" (stdout result_summary))
                                 EmptyString)))
    else
      let error_msg :=
        "Process failed with exit code " +:+ str_int (returncode result_summary) in
      (PNone,
       PStr (if negb (String.eqb (stderr result_summary) EmptyString)
             then error_msg +:+ ": " +:+ stderr result_summary
             else error_msg)).

(** The text of the transient script ([script_content]). *)
Definition script_content (function_path : string) (input_data : pyval) : string :=
  join NL [
    EmptyString;
    "import importlib.util";
    "import json";
    "import sys";
    "from pathlib import Path";
    EmptyString;
    "# Function execution script";
    "function_path = " +:+ String DQUOTE function_path +:+ String DQUOTE EmptyString;
    "input_data = " +:+ py_repr input_data;
    EmptyString;
    "try:";
    "    # Load function module";
    "    spec = importlib.util.spec_from_file_location("
      +:+ String DQUOTE "func_module" +:+ String DQUOTE ", function_path)";
    "    func_module = importlib.util.module_from_spec(spec)";
    "    spec.loader.exec_module(func_module)";
    "    ";
    "    # Execute function";
    "    result = func_module.handler(input_data)";
    "    ";
    "    # Print result without extra output during strace";
    "    print(repr(result))";
    "        ";
    "except Exception as e:";
    "    print(f" +:+ String DQUOTE "ERROR: {e}" +:+ String DQUOTE ")";
    "    sys.exit(1)";
    EmptyString
  ].

(** [profile_full_python] *)
Definition profile_full_python (e : spawn_env) (function_info : function_info)
  : M result_dict :=
  let function_path := function_path function_info in
  let function_name := name function_info in
  let input_data := _get_input_for_function function_name in
  print ("=== Profiling " +:+ function_name +:+ " with full Python execution ===") ;;
  print ("Function path: " +:+ function_path) ;;
  print ("Input data: " +:+ py_str input_data) ;;
  let strace_summary_file := "fullpython_summary_" +:+ function_name +:+ ".txt" in
  let strace_full_file := "fullpython_full_" +:+ function_name +:+ ".txt" in
  temp_script_path ← write_temp_script e (script_content function_path input_data) ;
  try_finally
    (try_except
       (try_except
          (let strace_summary_cmd :=
             ["strace"; "-c"; "-f"; "-o"; strace_summary_file; "python3"; temp_script_path] in
           result_summary ← subprocess_run (s_run_summary e) strace_summary_cmd 60 ;
           let strace_full_cmd :=
             ["strace"; "-f"; "-o"; strace_full_file; "python3"; temp_script_path] in
           result_full ← subprocess_run (s_run_full e) strace_full_cmd 60 ;
           let outcome := parse_function_output (s_eval e) result_summary in
           let function_result := fst outcome in
           let error_msg := snd outcome in
           print "Full Python strace files saved:" ;;
           print ("  Summary: " +:+ strace_summary_file) ;;
           print ("  Full trace: " +:+ strace_full_file) ;;
           ret (mkdict [("function_name", PStr function_name);
                        ("profiling_mode", PStr "full_python");
                        ("success", PBool true);
                        ("function_result", function_result);
                        ("error", error_msg);
                        ("input_data", input_data);
                        ("strace_summary_file", PStr strace_summary_file);
                        ("strace_full_file", PStr strace_full_file);
                        ("stdout", PStr (stdout result_summary));
                        ("stderr", PStr (stderr result_summary))]))
          is_TimeoutExpired
          (fun _ =>
             ret (mkdict [("function_name", PStr function_name);
                          ("profiling_mode", PStr "full_python");
                          ("success", PBool false);
                          ("error", PStr "Full Python execution timed out");
                          ("input_data", input_data)])))
       is_Exception
       (fun ex =>
          ret (mkdict [("function_name", PStr function_name);
                       ("profiling_mode", PStr "full_python");
                       ("success", PBool false);
                       ("error", PStr (str_exc ex));
                       ("input_data", input_data)])))
    (* cleanup temporary script *)
    (try_except (unlink temp_script_path) any_exception (fun _ => ret tt)).

(** *** What the transient script does when it runs

    The script binds [function_path] and [input_data] to the two literals
    substituted into its text, loads the module, calls the handler, and
    prints [repr(result)], or an [ERROR:] line before exiting with status 1.
    A [SystemExit] passes the script's [except Exception] and ends the
    interpreter as [exit_status] and [exit_text] say.  What the handler
    wrote on the standard streams comes first.  The collector passes the
    standard streams and the exit status through, and the parent reads the
    text the child wrote (same encoding on both sides, no carriage
    returns). *)

(** The returned value, if there is one, is within the limits in which
    every interpreter converts it to text. *)
Definition printable (r : workload_run) : bool :=
  match w_result r with
  | Ok v => within_limits v
  | Raise _ => true
  end.

(** What the script prints and how it exits, given how the workload ran,
    for a run that is [printable]. *)
Definition script_outcome (r : workload_run) : CompletedProcess :=
  match w_result r with
  | Ok v =>
      {| returncode := 0; stdout := w_stdout r +:+ py_repr v +:+ NL;
         stderr := w_stderr r |}
  | Raise (SystemExit code) =>
      {| returncode := exit_status code; stdout := w_stdout r;
         stderr := w_stderr r +:+ exit_text code |}
  | Raise ex =>
      {| returncode := 1;
         stdout := w_stdout r +:+ "ERROR: " +:+ str_exc ex +:+ NL;
         stderr := w_stderr r |}
  end.

Record child_env : Type := mkChild {
  c_workload : workload;   (* the function under test, in the child *)
  c_otherwise : string -> string -> CompletedProcess
    (* the run of a script outside what the model reads and writes: a
       literal that is no display (a syntax error, another value), a
       returned value beyond the limits of conversion to text *)
}.

(** The path and the input that a script binds whose assignments have
    [path_literal] and [input_literal] on their right-hand sides, when these
    are displays within the limits and the first is a string. *)
Definition script_calls (path_literal input_literal : string)
  : option (string * pyval) :=
  match read_display path_literal, read_display input_literal with
  | Some (PStr path), Some input =>
      if within_limits input then Some (path, input) else None
  | _, _ => None
  end.

Definition run_script (c : child_env) (path_literal input_literal : string)
  : CompletedProcess :=
  match script_calls path_literal input_literal with
  | Some (path, input) =>
      let r := c_workload c path input in
      if printable r then script_outcome r
      else c_otherwise c path_literal input_literal
  | None => c_otherwise c path_literal input_literal
  end.

(** The handler call of the script of [profile_full_python] for
    [function_info], and the run of that script in [c]. *)
Definition transient_script_calls (function_info : function_info)
  : option (string * pyval) :=
  script_calls
    (String DQUOTE (function_path function_info +:+ String DQUOTE EmptyString))
    (py_repr (_get_input_for_function (name function_info))).

Definition run_transient_script (c : child_env) (function_info : function_info)
  : CompletedProcess :=
  run_script c
    (String DQUOTE (function_path function_info +:+ String DQUOTE EmptyString))
    (py_repr (_get_input_for_function (name function_info))).

(** *** [main] *)

Fixpoint for_each {A} (l : list A) (body : A -> M unit) : M unit :=
  match l with
  | [] => ret tt
  | x :: l' => body x ;; for_each l' body
  end.

(** One block of the final report; [main] has it twice, for
    [runtime_full_result] and for [fullpython_result], and a third time,
    commented out, for [runtime_summary_result]. *)
Definition report_detail (title : string) (r : result_dict) : M unit :=
  success ← getitem r "success" ;
  if truthy success then
    print (String LF title) ;;
    function_result ← getitem r "function_result" ;
    print ("  Function executed: "
           +:+ (if is_not_None function_result then "✓" else "✗")) ;;
    function_result ← getitem r "function_result" ;
    (if is_not_None function_result then
       function_result ← getitem r "function_result" ;
       print ("  Function result: " +:+ py_str function_result)
     else ret tt) ;;
    error ← getitem r "error" ;
    if truthy error then
      error ← getitem r "error" ;
      print ("  Function error: " +:+ py_str error)
    else ret tt
  else ret tt.

(** The "Show results" stage of [main]. *)
Definition show_results
  (runtime_summary_result runtime_full_result fullpython_result : result_dict)
  : M unit :=
  print (String LF "=== Final Results ===") ;;
  report_detail "Runtime-only profiling (full):" runtime_full_result ;;
  report_detail "Full Python profiling:" fullpython_result.

Definition main (found : list (list string)) (e1 e2 : attach_env) (e3 : spawn_env)
  : M unit :=
  let functions := _discover_functions found in
  print "=== True Runtime Profiler - Dual Mode Demo ===" ;;
  print "This tool provides two profiling modes:" ;;
  print "1. Runtime-only: Profile function loading/execution (Python runtime already loaded)" ;;
  print "2. Full Python: Profile entire Python execution including runtime startup + function loading/exec" ;;
  print EmptyString ;;
  (* find target function for testing *)
  match List.find (fun func => contains "110.dynamic-html" (name func)) functions with
  | Some target_func =>
      print ("Testing with function: " +:+ name target_func) ;;
      print (String LF "1a. Profiling with runtime-only method (summary)...") ;;
      runtime_summary_result ← profile_function_in_runtime e1 target_func true ;
      print (String LF "1b. Profiling with runtime-only method (full)...") ;;
      runtime_full_result ← profile_function_in_runtime e2 target_func false ;
      print (String LF (repeat_char "=" 60)) ;;
      print (String LF "2. Profiling with full Python method...") ;;
      fullpython_result ← profile_full_python e3 target_func ;
      print (String LF (repeat_char "=" 60)) ;;
      show_results runtime_summary_result runtime_full_result fullpython_result
  | None =>
      print "No suitable test function found" ;;
      print "Available functions:" ;;
      for_each (firstn 5 functions)
        (fun func => print ("  - " +:+ name func +:+ " (" +:+ category func +:+ ")"))
  end.

(** The world before a call: nothing printed, no script, no collector. *)
Definition init_world : world := mkWorld [] ∅ None [].

(* ===================================================================== *)
(** ** Vocabulary of the specification                                    *)
(* ===================================================================== *)

(** A profiling call in either mode, with what the operating system
    answers during it. *)
Inductive call : Type :=
| Attach (e : attach_env) (summary : bool)
| Spawn (e : spawn_env).

Definition profile (c : call) (function_info : function_info) : M result_dict :=
  match c with
  | Attach e summary => profile_function_in_runtime e function_info summary
  | Spawn e => profile_full_python e function_info
  end.

(** The value a computation returned, if it returned. *)
Definition returned {A} (r : result A * world) : option A :=
  match fst r with
  | Ok a => Some a
  | Raise _ => None
  end.

(** A field of the dictionary a call returned. *)
Definition field (r : result result_dict * world) (k : string) : option pyval :=
  match returned r with
  | Some d => d !! k
  | None => None
  end.

(** [d['success']] is [True]. *)
Definition succeeded (d : result_dict) : bool :=
  match d !! "success" with
  | Some (PBool true) => true
  | _ => false
  end.

(** The field is present and is not [None]. *)
Definition is_set (d : result_dict) (k : string) : bool :=
  match d !! k with
  | Some v => is_not_None v
  | None => false
  end.

(** The collector command of an attach-mode call. *)
Definition attach_cmd (pid : Z) (summary : bool) (function_name : string)
  : list string :=
  if summary then
    ["strace"; "-c"; "-p"; str_int pid; "-o";
     "runtime_summary_" +:+ function_name +:+ ".txt"]
  else
    ["strace"; "-p"; str_int pid; "-o";
     "runtime_full_" +:+ function_name +:+ ".txt"].

(** How the in-process workload of an attach-mode call ends. *)
Definition attach_workload_result (e : attach_env) (fi : function_info)
  : result pyval :=
  w_result (a_workload e (function_path fi)
              (_get_input_for_function (name fi))).

(** No [SystemExit] is raised into the call; everything raised is an
    [Exception]. *)
Definition raises_only_Exception {A} (r : result A) : bool :=
  match r with
  | Ok _ => true
  | Raise ex => is_Exception ex
  end.

(** An optional failure seen as the result of the operation. *)
Definition from_option_exc (o : option pyexc) : result unit :=
  match o with
  | Some ex => Raise ex
  | None => Ok tt
  end.

(** A call into which nothing but [Exception]s is raised, and whose
    transient script, in spawn mode, could be written. *)
Definition orderly (c : call) (fi : function_info) : bool :=
  match c with
  | Attach e _ =>
      raises_only_Exception (from_option_exc (a_popen e))
      && raises_only_Exception (attach_workload_result e fi)
      && raises_only_Exception (from_option_exc (a_send_signal e))
  | Spawn e =>
      match s_write e with Some _ => false | None => true end
      && raises_only_Exception (s_run_summary e)
      && raises_only_Exception (s_run_full e)
  end.

(** A collector run of a spawn-mode call exceeds its 60 s bound. *)
Definition spawn_timed_out (e : spawn_env) : bool :=
  match s_run_summary e with
  | Raise ex => is_TimeoutExpired ex
  | Ok _ =>
      match s_run_full e with
      | Raise ex => is_TimeoutExpired ex
      | Ok _ => false
      end
  end.

(** Only spawn mode bounds the run of the workload. *)
Definition timed_out (c : call) : bool :=
  match c with
  | Attach _ _ => false
  | Spawn e => spawn_timed_out e
  end.

(** Values [repr] writes as a display that [read_display] reads back: no
    foreign object inside; a dictionary has no repeated key. *)
Fixpoint literal (v : pyval) : bool :=
  match v with
  | PObj _ => false
  | PList l => forallb literal l
  | PDict kvs =>
      bool_decide (NoDup (List.map fst kvs))
      && forallb (fun kv => literal (snd kv)) kvs
  | _ => true
  end.

(** A path that can stand between double quotes as it is. *)
Definition plain_path (p : string) : bool :=
  all_chars (fun c => negb (Ascii.eqb c DQUOTE || Ascii.eqb c BACKSLASH
                            || Ascii.eqb c LF || Ascii.eqb c CR
                            || Ascii.eqb c NUL)) p.

(** The lines of one block of the final report. *)
Definition detail_lines (title : string) (function_result error : pyval)
  : list string :=
  [String LF title;
   "  Function executed: " +:+ (if is_not_None function_result then "✓" else "✗")]
  ++ (if is_not_None function_result
      then ["  Function result: " +:+ py_str function_result] else [])
  ++ (if truthy error then ["  Function error: " +:+ py_str error] else []).

Definition report_block (title : string) (d : result_dict) : list string :=
  if succeeded d then
    detail_lines title (default PNone (d !! "function_result"))
                       (default PNone (d !! "error"))
  else [].

(** A result dictionary as the two profiling functions build it: a boolean
    [success], and [function_result] and [error] when it is [True]. *)
Definition well_formed_result (d : result_dict) : bool :=
  match d !! "success" with
  | Some (PBool true) =>
      match d !! "function_result", d !! "error" with
      | Some _, Some _ => true
      | _, _ => false
      end
  | Some (PBool false) => true
  | _ => false
  end.

Definition banner : list string :=
  ["=== True Runtime Profiler - Dual Mode Demo ===";
   "This tool provides two profiling modes:";
   "1. Runtime-only: Profile function loading/execution (Python runtime already loaded)";
   "2. Full Python: Profile entire Python execution including runtime startup + function loading/exec";
   EmptyString].

(** *** Sample inputs *)

Definition sample_function : function_info :=
  {| name := "x"; category := "100.webapps";
     function_path := "benchmarks/100.webapps/x/python/function.py";
     input_path := "benchmarks/100.webapps/x/python/input.py" |}.

Definition returns_42 : workload :=
  fun _ _ => mkRun EmptyString EmptyString (Ok (PDict [("result", PInt 42)])).

Definition raises_boom : workload :=
  fun _ _ => mkRun EmptyString EmptyString (Raise (Exception "boom")).

(** [sys.exit('bye')] *)
Definition exits_bye : workload :=
  fun _ _ => mkRun EmptyString EmptyString (Raise (SystemExit (ExitMsg "bye"))).

(** [float('nan')], whose [repr] is [nan]. *)
Definition returns_nan : workload :=
  fun _ _ => mkRun EmptyString EmptyString (Ok (PObj "nan")).

(** The float 1.5 inside a dictionary. *)
Definition returns_one_and_a_half : workload :=
  fun _ _ => mkRun EmptyString EmptyString (Ok (PDict [("result", PObj "1.5")])).

(** A scope in which no text but a display has a value: no name is bound
    and nothing but displays parses. *)
Definition bare_scope : string -> option pyval := fun _ => None.

(** The scope of [profile_full_python] as far as the samples ask: [nan] is
    not a name of it, a line that is not an expression is a syntax error,
    and the float literal [1.5] denotes the float. *)
Definition sample_scope : string -> option pyval :=
  fun s =>
    if String.eqb s "{'result': 1.5}" then Some (PDict [("result", PObj "1.5")])
    else None.

(** The collector starts and stops on request. *)
Definition calm (wl : workload) : attach_env :=
  {| a_pid := 4242; a_popen := None; a_workload := wl; a_send_signal := None;
     a_exits_on_sigint := true; a_terminate := None; a_exits_on_terminate := true |}.

(** The collector ignores the interrupt and exits only when terminated. *)
Definition stubborn (wl : workload) : attach_env :=
  {| a_pid := 4242; a_popen := None; a_workload := wl; a_send_signal := None;
     a_exits_on_sigint := false; a_terminate := None; a_exits_on_terminate := true |}.

Definition child (wl : workload) : child_env :=
  {| c_workload := wl;
     c_otherwise := fun _ _ =>
       mkCompleted 1 EmptyString "Traceback (most recent call last):" |}.

(** Both collector runs complete and pass the script's streams through. *)
Definition transparent (wl : workload) (fi : function_info) : spawn_env :=
  {| s_tmp := "/tmp/tmpk3v9x1.py"; s_write := None;
     s_run_summary := Ok (run_transient_script (child wl) fi);
     s_run_full := Ok (run_transient_script (child wl) fi);
     s_eval := sample_scope |}.

(** The first collector run exceeds its bound. *)
Definition slow (fi : function_info) : spawn_env :=
  {| s_tmp := "/tmp/tmpk3v9x1.py"; s_write := None;
     s_run_summary :=
       Raise (TimeoutExpired
                ["strace"; "-c"; "-f"; "-o";
                 "fullpython_summary_" +:+ name fi +:+ ".txt";
                 "python3"; "/tmp/tmpk3v9x1.py"] 60);
     s_run_full := Ok (mkCompleted 0 EmptyString EmptyString);
     s_eval := sample_scope |}.

Definition returns_42_after_printing : workload :=
  fun _ _ => mkRun ("starting" +:+ NL) EmptyString
               (Ok (PDict [("result", PInt 42)])).

(** A benchmark tree with one function, named as [main] looks for it. *)
Definition sample_tree : list (list string) :=
  [["benchmarks"; "100.webapps"; "110.dynamic-html"; "python"; "function.py"]].

Definition sample_target : function_info :=
  {| name := "110.dynamic-html"; category := "100.webapps";
     function_path := "benchmarks/100.webapps/110.dynamic-html/python/function.py";
     input_path := "benchmarks/100.webapps/110.dynamic-html/python/input.py" |}.



(* ===================================================================== *)
(** ** Auxiliary notions for the proofs                                   *)
(* ===================================================================== *)

(** The first binding of a key in a list of fields. *)
Fixpoint assoc (k : string) (l : list (string * pyval)) : option pyval :=
  match l with
  | [] => None
  | (k', v) :: l' => if String.eqb k' k then Some v else assoc k l'
  end.

(** What may follow a number or a name: not a letter, a digit or a point. *)
Definition next_ok (rest : string) : Prop :=
  starts_with_char (fun c => is_word c || Ascii.eqb c ".") rest = false.

(** The text of the elements of a list display, up to and including the
    closing bracket, followed by [rest]. *)
Fixpoint elems_text (l : list pyval) (rest : string) : string :=
  match l with
  | [] => "]" +:+ rest
  | v :: l' =>
      py_repr v +:+
      match l' with
      | [] => "]" +:+ rest
      | _ => ", " +:+ elems_text l' rest
      end
  end.

(** The same for the entries of a dictionary display. *)
Fixpoint pairs_text (kvs : list (string * pyval)) (rest : string) : string :=
  match kvs with
  | [] => "}" +:+ rest
  | kv :: kvs' =>
      repr_str (fst kv) +:+ ": " +:+ py_repr (snd kv) +:+
      match kvs' with
      | [] => "}" +:+ rest
      | _ => ", " +:+ pairs_text kvs' rest
      end
  end.

(** First characters of a display. *)
Definition head_ok (c : ascii) : bool :=
  is_digit c
  || Ascii.eqb c "N" || Ascii.eqb c "T" || Ascii.eqb c "F" || Ascii.eqb c "-"
  || Ascii.eqb c SQUOTE || Ascii.eqb c DQUOTE || Ascii.eqb c "[" || Ascii.eqb c "{".

(** What the induction over values carries: the parser reads the display
    of [v] back, whatever follows it, given fuel for its length. *)
Definition reads_back (v : pyval) : Prop :=
  literal v = true ->
  forall (fuel : nat) (inside : bool) (rest : string),
    (String.length (py_repr v) <= fuel)%nat ->
    next_ok rest ->
    parse_value fuel inside (py_repr v +:+ rest) = Some (v, rest).

(** A text that ends with a character other than white space. *)
Definition ends_solid (s : string) : Prop :=
  exists s' c, s = s' +:+ String c EmptyString /\ is_space c = false.

(* ===================================================================== *)
(** ** Further vocabulary: traces, commands and discovery                 *)
(* ===================================================================== *)

(** The requests a call makes when it starts from the initial world. *)
Definition trace (c : call) (fi : function_info) : list event :=
  log (snd (profile c fi init_world)).

(** The lines a call prints when it starts from the initial world. *)
Definition printed (c : call) (fi : function_info) : list string :=
  out (snd (profile c fi init_world)).

(** The argument that follows [-o] on a collector command line. *)
Fixpoint output_option (cmd : list string) : option string :=
  match cmd with
  | [] => None
  | a :: rest =>
      if String.eqb a "-o" then
        match rest with
        | path :: _ => Some path
        | [] => None
        end
      else output_option rest
  end.

(** [e] with other answers to the forced termination of the cleanup. *)
Definition with_cleanup (e : attach_env) (terminate_raises : option pyexc)
  (exits : bool) : attach_env :=
  {| a_pid := a_pid e; a_popen := a_popen e; a_workload := a_workload e;
     a_send_signal := a_send_signal e;
     a_exits_on_sigint := a_exits_on_sigint e;
     a_terminate := terminate_raises; a_exits_on_terminate := exits |}.

(** The two collector commands of a spawn-mode call. *)
Definition spawn_summary_cmd (function_name script : string) : list string :=
  ["strace"; "-c"; "-f"; "-o"; "fullpython_summary_" +:+ function_name +:+ ".txt";
   "python3"; script].

Definition spawn_full_cmd (function_name script : string) : list string :=
  ["strace"; "-f"; "-o"; "fullpython_full_" +:+ function_name +:+ ".txt";
   "python3"; script].

(** The exception that ends the collector runs of a spawn-mode call, if
    one of them raises: the second run is only started when the first has
    returned. *)
Definition spawn_failure (e : spawn_env) : option pyexc :=
  match s_run_summary e with
  | Raise ex => Some ex
  | Ok _ =>
      match s_run_full e with
      | Raise ex => Some ex
      | Ok _ => None
      end
  end.

(** The three lines every call prints first. *)
Definition heading (c : call) (fi : function_info) : list string :=
  [match c with
   | Attach _ summary =>
       "=== Profiling " +:+ name fi +:+ " in current runtime ("
       +:+ (if summary then "summary" else "full") +:+ ") ==="
   | Spawn _ =>
       "=== Profiling " +:+ name fi +:+ " with full Python execution ==="
   end;
   "Function path: " +:+ function_path fi;
   "Input data: " +:+ py_str (_get_input_for_function (name fi))].

(** The lines that tell where the collector's output went. *)
Definition saved_lines (c : call) (fi : function_info) : list string :=
  match c with
  | Attach _ summary =>
      ["Runtime strace file saved: "
       +:+ (if summary then "runtime_summary_" +:+ name fi +:+ ".txt"
            else "runtime_full_" +:+ name fi +:+ ".txt")]
  | Spawn _ =>
      ["Full Python strace files saved:";
       "  Summary: " +:+ "fullpython_summary_" +:+ name fi +:+ ".txt";
       "  Full trace: " +:+ "fullpython_full_" +:+ name fi +:+ ".txt"]
  end.

(** The last component of a path replaced by [input.py], on the text of
    the path. *)
Fixpoint sibling_input (path : string) : string :=
  match path with
  | EmptyString => "input.py"
  | String c rest =>
      if has_char "/" rest then String c (sibling_input rest)
      else if Ascii.eqb c "/" then String c "input.py"
      else "input.py"
  end.

(** A handler whose fault carries white space around its message. *)
Definition raises_padded : workload :=
  fun _ _ => mkRun EmptyString EmptyString (Raise (Exception "  disk full ")).

(** A handler that returns [None]. *)
Definition returns_None : workload :=
  fun _ _ => mkRun EmptyString EmptyString (Ok PNone).


Definition exits_quietly : workload :=
  fun _ _ => mkRun EmptyString EmptyString (Raise (SystemExit ExitNone)).

(** [e] with another answer to the second collector run. *)
Definition with_full_run (e : spawn_env) (full : result CompletedProcess)
  : spawn_env :=
  {| s_tmp := s_tmp e; s_write := s_write e;
     s_run_summary := s_run_summary e; s_run_full := full;
     s_eval := s_eval e |}.

(** The first collector run passes the script's streams through, the
    second cannot be started. *)
Definition second_run_fails (wl : workload) (fi : function_info) : spawn_env :=
  with_full_run (transparent wl fi)
    (Raise (Exception "[Errno 2] No such file or directory: 'strace'")).

(** The script cannot be written. *)
Definition disk_full (wl : workload) (fi : function_info) : spawn_env :=
  {| s_tmp := "/tmp/tmpk3v9x1.py";
     s_write := Some (Exception "[Errno 28] No space left on device");
     s_run_summary := Ok (run_transient_script (child wl) fi);
     s_run_full := Ok (run_transient_script (child wl) fi);
     s_eval := sample_scope |}.

(** The line the script prints for [v], as the parent strips it, is taken
    for neither an empty output nor an error line, and is an expression
    whose value in [scope] is [v]. *)
Definition decodes (scope : string -> option pyval) (v : pyval) : Prop :=
  let output_line := strip (py_repr v +:+ NL) in
  output_line <> EmptyString
  /\ startswith "ERROR:" output_line = false
  /\ py_eval scope output_line = Some v.

(** The message [profile_full_python] builds for a child that failed
    without an [ERROR:] line. *)
Definition process_failed (status : Z) (err : string) : string :=
  if String.eqb err EmptyString
  then "Process failed with exit code " +:+ str_int status
  else ("Process failed with exit code " +:+ str_int status) +:+ ": " +:+ err.



(* ===================================================================== *)
(** ** Sanity checks of the Python fragment                               *)
(* ===================================================================== *)

Example strip_ex : strip (" a b " +:+ NL) = "a b".
Proof. reflexivity. Qed.

Example split_ex : split_once "ERROR:" "ERROR: boom" = [EmptyString; " boom"].
Proof. reflexivity. Qed.

Example str_int_ex : (str_int (-12), str_int 0, str_int 4300) = ("-12", "0", "4300").
Proof. reflexivity. Qed.

Example repr_ex1 :
  py_repr (PDict [("result", PInt 42); ("tags", PList [PStr "a'b"; PNone])])
  = "{'result': 42, 'tags': [" +:+ String DQUOTE "a'b" +:+ String DQUOTE ", None]}".
Proof. reflexivity. Qed.

Example eval_ex1 :
  py_eval bare_scope ("{'result': 42, 'tags': [" +:+ String DQUOTE "a'b"
                      +:+ String DQUOTE ", None], 'n': -7}")
  = Some (PDict [("result", PInt 42); ("tags", PList [PStr "a'b"; PNone]);
                 ("n", PInt (-7))]).
Proof. vm_compute. reflexivity. Qed.

Example eval_ex2 :
  (read_display "nan", read_display "1.5", read_display "(1, 2)",
   read_display "{1: 2}", read_display "<Thumb object at 0x7f00>")
  = (None, None, None, None, None).
Proof. reflexivity. Qed.

Example eval_ex3 :
  (py_eval sample_scope "{'result': 1.5}", py_eval sample_scope "nan")
  = (Some (PDict [("result", PObj "1.5")]), None).
Proof. vm_compute. reflexivity. Qed.

Example eval_ex4 :
  read_display "{'a': 1, 'b': 2, 'a': 3}"
  = Some (PDict [("a", PInt 3); ("b", PInt 2)]).
Proof. reflexivity. Qed.

Example eval_ex5 :
  (read_display "007", read_display "00", read_display "[1, 2,]",
   read_display "'\x41\n'")
  = (None, Some (PInt 0), Some (PList [PInt 1; PInt 2]), Some (PStr ("A" +:+ NL))).
Proof. reflexivity. Qed.

Example exit_ex :
  (exit_status ExitNone, exit_status (ExitInt 3), exit_status (ExitInt 256),
   exit_status (ExitInt (-1)), exit_status (ExitInt (2 ^ 70)),
   exit_status (ExitMsg "bye"))
  = (0, 3, 0, 255, 255, 1).
Proof. vm_compute. reflexivity. Qed.

(* ===================================================================== *)
(** ** Lemmas: strings and the display round trip                         *)
(* ===================================================================== *)

(** ** Strings *)

Lemma append_nil_l (b : string) : EmptyString +:+ b = b.
Proof. reflexivity. Qed.

Lemma append_cons (x : ascii) (a b : string) :
  String x a +:+ b = String x (a +:+ b).
Proof. reflexivity. Qed.

Lemma append_assoc (a b c : string) : (a +:+ b) +:+ c = a +:+ b +:+ c.
Proof.
  induction a as [|x a IH]; [reflexivity|].
  rewrite !append_cons, IH. reflexivity.
Qed.

Lemma append_nil_r (a : string) : a +:+ EmptyString = a.
Proof.
  induction a as [|x a IH]; [reflexivity|].
  rewrite append_cons, IH. reflexivity.
Qed.

Lemma length_append (a b : string) :
  String.length (a +:+ b) = (String.length a + String.length b)%nat.
Proof.
  induction a as [|x a IH]; [reflexivity|].
  rewrite append_cons. cbn [String.length]. rewrite IH. reflexivity.
Qed.

(** ** Round trip of string literals *)

Ltac each_char c :=
  destruct c as [[] [] [] [] [] [] [] []].

Lemma parse_str_repr_char (q c : ascii) (tail : string) :
  q = SQUOTE \/ q = DQUOTE ->
  parse_str q (repr_char q c +:+ tail) = prepend c (parse_str q tail).
Proof.
  intros [-> | ->]; each_char c; reflexivity.
Qed.

Lemma parse_str_repr_body (q : ascii) (s rest : string) :
  q = SQUOTE \/ q = DQUOTE ->
  parse_str q (repr_body q s +:+ String q rest) = Some (s, rest).
Proof.
  intros Hq. induction s as [|c s IH].
  - cbn [repr_body parse_str]. rewrite append_nil_l. cbn [parse_str].
    rewrite Ascii.eqb_refl. reflexivity.
  - cbn [repr_body]. rewrite append_assoc, parse_str_repr_char, IH by exact Hq.
    reflexivity.
Qed.

Lemma repr_quote_cases (s : string) : repr_quote s = SQUOTE \/ repr_quote s = DQUOTE.
Proof. unfold repr_quote. case_match; auto. Qed.

Lemma parse_str_repr_str (s rest : string) :
  exists q body,
    repr_str s +:+ rest = String q body
    /\ (q = SQUOTE \/ q = DQUOTE)
    /\ parse_str q body = Some (s, rest).
Proof.
  exists (repr_quote s), (repr_body (repr_quote s) s +:+ String (repr_quote s) rest).
  split; [|split].
  - unfold repr_str. cbv zeta. rewrite append_cons, append_assoc. reflexivity.
  - apply repr_quote_cases.
  - apply parse_str_repr_body, repr_quote_cases.
Qed.

(** ** Round trip of integers *)

Lemma next_ok_not_digit (rest : string) :
  next_ok rest -> starts_with_char is_digit rest = false.
Proof.
  destruct rest as [|c r]; [reflexivity|].
  unfold next_ok, is_word. cbn [starts_with_char].
  destruct (is_digit c); [|reflexivity].
  rewrite orb_true_r. discriminate.
Qed.

Lemma span_stop (p : ascii -> bool) (rest : string) :
  starts_with_char p rest = false -> span p rest = (EmptyString, rest).
Proof.
  destruct rest as [|c r]; [reflexivity|].
  cbn [starts_with_char span]. intros ->. reflexivity.
Qed.

Lemma span_digits (d : uint) (rest : string) :
  starts_with_char is_digit rest = false ->
  span is_digit (NilEmpty.string_of_uint d +:+ rest)
  = (NilEmpty.string_of_uint d, rest).
Proof.
  intros H. induction d; cbn [NilEmpty.string_of_uint];
    rewrite ?append_nil_l, ?append_cons; [apply span_stop, H | ..];
    cbn [span]; rewrite IHd; reflexivity.
Qed.

Lemma all_zero_or_no_leading_zero (d : uint) :
  (forall d', d <> D0 d') ->
  starts_with_char (Ascii.eqb "0") (NilEmpty.string_of_uint d) = false.
Proof.
  intros H. destruct d; try reflexivity. now destruct (H d).
Qed.

Lemma parse_number_digits (neg : bool) (d : uint) (rest : string) :
  d = D0 Nil \/ (forall d', d <> D0 d') ->
  next_ok rest ->
  parse_number neg (NilEmpty.string_of_uint d +:+ rest)
  = Some (PInt (if neg then - Z.of_uint d else Z.of_uint d), rest).
Proof.
  intros Hd Hrest. unfold parse_number.
  rewrite span_digits by (apply next_ok_not_digit, Hrest).
  rewrite Hrest.
  replace (starts_with_char (Ascii.eqb "0") (NilEmpty.string_of_uint d)
           && negb (all_chars (Ascii.eqb "0") (NilEmpty.string_of_uint d)))
    with false.
  - rewrite NilEmpty.usu. reflexivity.
  - destruct Hd as [-> | Hd]; [reflexivity|].
    rewrite all_zero_or_no_leading_zero by exact Hd. reflexivity.
Qed.

Lemma to_uint_no_leading_zero (p : positive) (d' : uint) :
  Pos.to_uint p <> D0 d'.
Proof.
  assert (E : Pos.to_uint p = unorm (Pos.to_uint p)).
  { rewrite <- Unsigned.to_of, Unsigned.of_to. reflexivity. }
  pose proof (Unsigned.to_uint_nonzero p) as Hnz.
  rewrite E. unfold unorm.
  destruct (nzhead (Pos.to_uint p)) eqn:Hn; try discriminate.
  - rewrite E in Hnz. unfold unorm in Hnz. rewrite Hn in Hnz. now destruct Hnz.
  - now destruct (nzhead_nonzero (Pos.to_uint p) u).
Qed.

Lemma string_of_pos (p : positive) :
  NilZero.string_of_uint (Pos.to_uint p) = NilEmpty.string_of_uint (Pos.to_uint p).
Proof.
  pose proof (Unsigned.to_uint_nonnil p).
  destruct (Pos.to_uint p); [congruence | reflexivity..].
Qed.

Lemma of_uint_to_uint (p : positive) : Z.of_uint (Pos.to_uint p) = Z.pos p.
Proof. unfold Z.of_uint. rewrite Unsigned.of_to. reflexivity. Qed.

Lemma parse_number_nonneg (neg : bool) (n : Z) (rest : string) :
  0 <= n -> next_ok rest ->
  parse_number neg (str_int n +:+ rest)
  = Some (PInt (if neg then - n else n), rest).
Proof.
  intros Hn Hrest. destruct n as [|p|p]; [| |lia].
  - exact (parse_number_digits neg (D0 Nil) rest (or_introl eq_refl) Hrest).
  - unfold str_int. cbn [Z.to_int NilZero.string_of_int].
    rewrite string_of_pos, parse_number_digits, of_uint_to_uint;
      [reflexivity | right; apply to_uint_no_leading_zero | exact Hrest].
Qed.

(** The first character of the decimal text of a non-negative integer. *)
Lemma str_int_head (n : Z) :
  0 <= n -> exists c s, str_int n = String c s /\ is_digit c = true.
Proof.
  intros Hn. destruct n as [|p|p]; [| |lia].
  - exists "0"%char, EmptyString. split; reflexivity.
  - unfold str_int. cbn [Z.to_int NilZero.string_of_int]. rewrite string_of_pos.
    pose proof (Unsigned.to_uint_nonnil p).
    destruct (Pos.to_uint p); [congruence | ..]; eexists _, _; split; reflexivity.
Qed.

Lemma str_int_neg (p : positive) :
  str_int (Z.neg p) = String "-" (str_int (Z.pos p)).
Proof. reflexivity. Qed.

(** ** Round trip of displays *)

Lemma pyval_nested_ind (P : pyval -> Prop) :
  P PNone ->
  (forall b, P (PBool b)) ->
  (forall z, P (PInt z)) ->
  (forall s, P (PStr s)) ->
  (forall l, Forall P l -> P (PList l)) ->
  (forall kvs, Forall (fun kv => P (snd kv)) kvs -> P (PDict kvs)) ->
  (forall r, P (PObj r)) ->
  forall v, P v.
Proof.
  intros HNone HBool HInt HStr HList HDict HObj.
  fix IH 1. intros [ | b | z | s | l | kvs | r].
  - exact HNone.
  - apply HBool.
  - apply HInt.
  - apply HStr.
  - apply HList. induction l as [|x l IHl]; constructor; [apply IH | exact IHl].
  - apply HDict. induction kvs as [|[k x] kvs IHl]; constructor; [apply IH | exact IHl].
  - apply HObj.
Qed.

Lemma join_elems (l : list pyval) (rest : string) :
  join ", " (List.map py_repr l) +:+ "]" +:+ rest = elems_text l rest.
Proof.
  induction l as [|v l IH]; [reflexivity|].
  destruct l as [|v' l].
  - reflexivity.
  - change (join ", " (List.map py_repr (v :: v' :: l)))
      with (py_repr v +:+ ", " +:+ join ", " (List.map py_repr (v' :: l))).
    rewrite !append_assoc, IH. reflexivity.
Qed.

Lemma join_pairs (kvs : list (string * pyval)) (rest : string) :
  join ", " (List.map (fun kv => repr_str (fst kv) +:+ ": " +:+ py_repr (snd kv)) kvs)
  +:+ "}" +:+ rest = pairs_text kvs rest.
Proof.
  induction kvs as [|kv l IH]; [reflexivity|].
  destruct l as [|kv' l].
  - cbn [List.map join pairs_text]. rewrite !append_assoc. reflexivity.
  - change (join ", " (List.map ?f (kv :: kv' :: l)))
      with (f kv +:+ ", " +:+ join ", " (List.map f (kv' :: l))).
    cbv beta. rewrite !append_assoc, IH. reflexivity.
Qed.

Lemma repr_list (l : list pyval) (rest : string) :
  py_repr (PList l) +:+ rest = String "[" (elems_text l rest).
Proof.
  cbn [py_repr]. rewrite !append_assoc, join_elems.
  reflexivity.
Qed.

Lemma repr_dict (kvs : list (string * pyval)) (rest : string) :
  py_repr (PDict kvs) +:+ rest = String "{" (pairs_text kvs rest).
Proof.
  cbn [py_repr]. rewrite !append_assoc, join_pairs.
  reflexivity.
Qed.

Lemma head_ok_facts (c : ascii) :
  head_ok c = true ->
  is_blank true c = false /\ is_blank false c = false
  /\ is_space c = false
  /\ Ascii.eqb c "]" = false /\ Ascii.eqb c "}" = false
  /\ Ascii.eqb c "E" = false.
Proof. each_char c; cbv; intuition discriminate. Qed.

Lemma digit_is_head (c : ascii) : is_digit c = true -> head_ok c = true.
Proof. unfold head_ok. intros ->. reflexivity. Qed.

Lemma repr_head (v : pyval) :
  literal v = true ->
  exists c s, py_repr v = String c s /\ head_ok c = true.
Proof.
  destruct v as [ | [|] | z | s | l | kvs | r]; cbn [literal py_repr];
    try discriminate; intros _.
  - eexists _, _; split; reflexivity.
  - eexists _, _; split; reflexivity.
  - eexists _, _; split; reflexivity.
  - destruct z as [|p|p].
    + eexists _, _; split; reflexivity.
    + destruct (str_int_head (Z.pos p)) as (c & s & -> & Hc); [lia|].
      eexists _, _; split; [reflexivity | apply digit_is_head, Hc].
    + rewrite str_int_neg. eexists _, _; split; reflexivity.
  - unfold repr_str. destruct (repr_quote_cases s) as [-> | ->];
      eexists _, _; split; reflexivity.
  - eexists _, _; split; reflexivity.
  - eexists _, _; split; reflexivity.
Qed.

Lemma span_word_stop (rest : string) :
  next_ok rest -> span is_word rest = (EmptyString, rest).
Proof.
  intros H. apply span_stop. destruct rest as [|c r]; [reflexivity|].
  unfold next_ok in H. cbn [starts_with_char] in *.
  destruct (is_word c); [discriminate | reflexivity].
Qed.

Lemma next_ok_bracket (rest : string) : next_ok ("]" +:+ rest).
Proof. reflexivity. Qed.
Lemma next_ok_brace (rest : string) : next_ok ("}" +:+ rest).
Proof. reflexivity. Qed.
Lemma next_ok_comma (rest : string) : next_ok (", " +:+ rest).
Proof. reflexivity. Qed.

Lemma digit_facts (c : ascii) :
  is_digit c = true ->
  (forall inside, is_blank inside c = false)
  /\ Ascii.eqb c "[" = false /\ Ascii.eqb c "{" = false
  /\ Ascii.eqb c SQUOTE = false /\ Ascii.eqb c DQUOTE = false.
Proof.
  each_char c; cbv; try discriminate; intros _; repeat split; intros []; reflexivity.
Qed.

Lemma parse_value_word (f : nat) (inside : bool) (w rest : string) (v : pyval) :
  (w, v) = ("None", PNone) \/ (w, v) = ("True", PBool true)
  \/ (w, v) = ("False", PBool false) ->
  next_ok rest ->
  parse_value (S f) inside (w +:+ rest) = Some (v, rest).
Proof.
  intros H Hr.
  destruct H as [[= -> ->] | [[= -> ->] | [= -> ->]]]; destruct inside;
    rewrite !append_cons, append_nil_l; cbn;
    rewrite (span_word_stop _ Hr); reflexivity.
Qed.

Lemma parse_value_quote (f : nat) (inside : bool) (q : ascii) (body : string) :
  q = SQUOTE \/ q = DQUOTE ->
  parse_value (S f) inside (String q body)
  = match parse_str q body with
    | Some (t, rest) => Some (PStr t, rest)
    | None => None
    end.
Proof. intros [-> | ->]; destruct inside; reflexivity. Qed.

Lemma parse_value_open_list (f : nat) (inside : bool) (s1 : string) :
  parse_value (S f) inside (String "[" s1)
  = match parse_items f s1 with
    | Some (l, rest) => Some (PList l, rest)
    | None => None
    end.
Proof. destruct inside; reflexivity. Qed.

Lemma parse_value_open_dict (f : nat) (inside : bool) (s1 : string) :
  parse_value (S f) inside (String "{" s1)
  = match parse_pairs f s1 with
    | Some (kvs, rest) => Some (PDict (dict_of_pairs kvs), rest)
    | None => None
    end.
Proof. destruct inside; reflexivity. Qed.

Lemma parse_value_minus (f : nat) (inside : bool) (t : string) :
  parse_value (S f) inside (String "-" t)
  = if starts_with_char is_digit (skip_blank inside t)
    then parse_number true (skip_blank inside t) else None.
Proof. destruct inside; reflexivity. Qed.

Lemma parse_value_str (f : nat) (inside : bool) (s rest : string) :
  parse_value (S f) inside (repr_str s +:+ rest) = Some (PStr s, rest).
Proof.
  destruct (parse_str_repr_str s rest) as (q & body & -> & Hq & Hp).
  rewrite (parse_value_quote f inside q body Hq), Hp. reflexivity.
Qed.

Lemma parse_value_digits (f : nat) (inside : bool) (n : Z) (rest : string) :
  0 <= n -> next_ok rest ->
  parse_value (S f) inside (str_int n +:+ rest) = Some (PInt n, rest).
Proof.
  intros Hn Hr.
  destruct (str_int_head n Hn) as (c & s & E & Hc).
  destruct (digit_facts c Hc) as (Hb & H1 & H2 & H3 & H4).
  rewrite <- (parse_number_nonneg false n rest Hn Hr).
  rewrite E, append_cons. cbn [parse_value skip_blank].
  rewrite Hb, H1, H2, H3, H4, Hc. reflexivity.
Qed.

Lemma parse_value_int (f : nat) (inside : bool) (z : Z) (rest : string) :
  next_ok rest ->
  parse_value (S f) inside (str_int z +:+ rest) = Some (PInt z, rest).
Proof.
  intros Hr. destruct z as [|p|p]; try (apply parse_value_digits; [lia | exact Hr]).
  rewrite str_int_neg, append_cons.
  destruct (str_int_head (Z.pos p)) as (c & s & E & Hc); [lia|].
  destruct (digit_facts c Hc) as (Hb & _).
  assert (Hs : skip_blank inside (str_int (Z.pos p) +:+ rest)
               = str_int (Z.pos p) +:+ rest).
  { rewrite E, append_cons. cbn [skip_blank]. rewrite Hb. reflexivity. }
  assert (Hd : starts_with_char is_digit (str_int (Z.pos p) +:+ rest) = true).
  { rewrite E, append_cons. exact Hc. }
  rewrite parse_value_minus, Hs, Hd, parse_number_nonneg by (lia || exact Hr).
  reflexivity.
Qed.

(** *** List displays *)

Lemma parse_value_space (f : nat) (s : string) :
  parse_value f true (String " " s) = parse_value f true s.
Proof. destruct f; reflexivity. Qed.

Lemma parse_items_space (f : nat) (s : string) :
  parse_items f (String " " s) = parse_items f s.
Proof. destruct f; reflexivity. Qed.

Lemma parse_pairs_space (f : nat) (s : string) :
  parse_pairs f (String " " s) = parse_pairs f s.
Proof. destruct f; reflexivity. Qed.

Lemma parse_items_close (f : nat) (rest : string) :
  parse_items (S f) (String "]" rest) = Some ([], rest).
Proof. reflexivity. Qed.

Lemma parse_items_last (f : nat) (c : ascii) (s1 : string) (v : pyval)
  (rest : string) :
  head_ok c = true ->
  parse_value f true (String c s1) = Some (v, String "]" rest) ->
  parse_items (S f) (String c s1) = Some ([v], rest).
Proof.
  intros Hc Hv. destruct (head_ok_facts c Hc) as (Hb & _ & _ & Hclose & _).
  cbn [parse_items skip_blank]. rewrite Hb, Hclose, Hv. reflexivity.
Qed.

Lemma parse_items_more (f : nat) (c : ascii) (s1 : string) (v : pyval)
  (more : string) (l : list pyval) (rest : string) :
  head_ok c = true ->
  parse_value f true (String c s1) = Some (v, String "," (String " " more)) ->
  parse_items f more = Some (l, rest) ->
  parse_items (S f) (String c s1) = Some (v :: l, rest).
Proof.
  intros Hc Hv Hl. destruct (head_ok_facts c Hc) as (Hb & _ & _ & Hclose & _).
  cbn [parse_items skip_blank]. rewrite Hb, Hclose, Hv.
  change (skip_blank true (String "," (String " " more)))
    with (String "," (String " " more)).
  change (Ascii.eqb "," ",") with true. cbv iota.
  rewrite parse_items_space, Hl. reflexivity.
Qed.

Lemma elems_text_length (v : pyval) (l : list pyval) :
  String.length (elems_text (v :: l) EmptyString)
  = (String.length (py_repr v)
     + match l with
       | [] => 1
       | _ => 2 + String.length (elems_text l EmptyString)
       end)%nat.
Proof.
  cbn [elems_text]. rewrite length_append. destruct l; reflexivity.
Qed.

Lemma parse_items_elems (l : list pyval) :
  Forall reads_back l ->
  forallb literal l = true ->
  forall (fuel : nat) (rest : string),
    (String.length (elems_text l EmptyString) <= fuel)%nat ->
    parse_items fuel (elems_text l rest) = Some (l, rest).
Proof.
  induction 1 as [|v l Hv Hl IH]; intros Hlit fuel rest Hfuel.
  - destruct fuel as [|f]; [cbv in Hfuel; lia|]. reflexivity.
  - cbn [forallb] in Hlit. apply andb_prop in Hlit as [Hlv Hll].
    rewrite elems_text_length in Hfuel.
    destruct (repr_head v Hlv) as (c & s' & E & Hc).
    cbn [elems_text].
    destruct l as [|v' l']; (destruct fuel as [|f]; [lia|]).
    + assert (Hpv : parse_value f true (String c (s' +:+ "]" +:+ rest))
                    = Some (v, String "]" rest)).
      { rewrite <- append_cons, <- E.
        apply (Hv Hlv); [lia | apply next_ok_bracket]. }
      rewrite E, append_cons.
      exact (parse_items_last f c _ v rest Hc Hpv).
    + set (more := elems_text (v' :: l') rest).
      assert (Hpv : parse_value f true (String c (s' +:+ ", " +:+ more))
                    = Some (v, String "," (String " " more))).
      { rewrite <- append_cons, <- E.
        apply (Hv Hlv); [lia | apply next_ok_comma]. }
      rewrite E, append_cons.
      refine (parse_items_more f c _ v more (v' :: l') rest Hc Hpv _).
      apply IH; [exact Hll | lia].
Qed.

(** *** Dictionary displays *)

Lemma quote_facts (q : ascii) :
  q = SQUOTE \/ q = DQUOTE ->
  is_blank true q = false /\ Ascii.eqb q "}" = false
  /\ Ascii.eqb q SQUOTE || Ascii.eqb q DQUOTE = true.
Proof. intros [-> | ->]; repeat split. Qed.

Lemma parse_pairs_close (f : nat) (rest : string) :
  parse_pairs (S f) (String "}" rest) = Some ([], rest).
Proof. reflexivity. Qed.

Lemma parse_pairs_last (f : nat) (q : ascii) (body k : string) (vtext : string)
  (v : pyval) (rest : string) :
  q = SQUOTE \/ q = DQUOTE ->
  parse_str q body = Some (k, String ":" (String " " vtext)) ->
  parse_value f true vtext = Some (v, String "}" rest) ->
  parse_pairs (S f) (String q body) = Some ([(k, v)], rest).
Proof.
  intros Hq Hk Hv. destruct (quote_facts q Hq) as (Hb & Hclose & Hquote).
  cbn [parse_pairs skip_blank]. rewrite Hb, Hclose, Hquote, Hk.
  change (skip_blank true (String ":" (String " " vtext)))
    with (String ":" (String " " vtext)).
  change (Ascii.eqb ":" ":") with true. cbv iota.
  rewrite parse_value_space, Hv. reflexivity.
Qed.

Lemma parse_pairs_more (f : nat) (q : ascii) (body k : string) (vtext : string)
  (v : pyval) (more : string) (kvs : list (string * pyval)) (rest : string) :
  q = SQUOTE \/ q = DQUOTE ->
  parse_str q body = Some (k, String ":" (String " " vtext)) ->
  parse_value f true vtext = Some (v, String "," (String " " more)) ->
  parse_pairs f more = Some (kvs, rest) ->
  parse_pairs (S f) (String q body) = Some ((k, v) :: kvs, rest).
Proof.
  intros Hq Hk Hv Hkvs. destruct (quote_facts q Hq) as (Hb & Hclose & Hquote).
  cbn [parse_pairs skip_blank]. rewrite Hb, Hclose, Hquote, Hk.
  change (skip_blank true (String ":" (String " " vtext)))
    with (String ":" (String " " vtext)).
  change (Ascii.eqb ":" ":") with true. cbv iota.
  rewrite parse_value_space, Hv.
  change (skip_blank true (String "," (String " " more)))
    with (String "," (String " " more)).
  change (Ascii.eqb "," ",") with true. cbv iota.
  rewrite parse_pairs_space, Hkvs. reflexivity.
Qed.

Lemma repr_str_length (s : string) : (2 <= String.length (repr_str s))%nat.
Proof.
  unfold repr_str. cbv zeta. cbn [String.length]. rewrite length_append.
  cbn [String.length]. lia.
Qed.

Lemma pairs_text_length (kv : string * pyval) (kvs : list (string * pyval)) :
  String.length (pairs_text (kv :: kvs) EmptyString)
  = (String.length (repr_str (fst kv)) + 2 + String.length (py_repr (snd kv))
     + match kvs with
       | [] => 1
       | _ => 2 + String.length (pairs_text kvs EmptyString)
       end)%nat.
Proof.
  cbn [pairs_text]. destruct kvs; repeat rewrite length_append;
    cbn [String.length]; lia.
Qed.

Lemma parse_pairs_entries (kvs : list (string * pyval)) :
  Forall (fun kv => reads_back (snd kv)) kvs ->
  forallb (fun kv => literal (snd kv)) kvs = true ->
  forall (fuel : nat) (rest : string),
    (String.length (pairs_text kvs EmptyString) <= fuel)%nat ->
    parse_pairs fuel (pairs_text kvs rest) = Some (kvs, rest).
Proof.
  induction 1 as [|[k v] kvs Hv Hl IH]; intros Hlit fuel rest Hfuel.
  - destruct fuel as [|f]; [cbv in Hfuel; lia|]. reflexivity.
  - cbn [forallb snd] in Hlit. apply andb_prop in Hlit as [Hlv Hll].
    rewrite pairs_text_length in Hfuel. cbn [fst snd] in Hfuel, Hv.
    cbn [pairs_text fst snd].
    destruct kvs as [|kv' kvs']; (destruct fuel as [|f]; [lia|]).
    + destruct (parse_str_repr_str k (": " +:+ py_repr v +:+ "}" +:+ rest))
        as (q & body & -> & Hq & Hk).
      refine (parse_pairs_last f q body k _ v rest Hq Hk _).
      apply (Hv Hlv); [lia | apply next_ok_brace].
    + set (more := pairs_text (kv' :: kvs') rest).
      destruct (parse_str_repr_str k (": " +:+ py_repr v +:+ ", " +:+ more))
        as (q & body & -> & Hq & Hk).
      refine (parse_pairs_more f q body k _ v more (kv' :: kvs') rest Hq Hk _ _).
      * apply (Hv Hlv); [lia | apply next_ok_comma].
      * apply IH; [exact Hll | lia].
Qed.

(** Building a dictionary from entries with distinct keys keeps them. *)
Lemma dict_set_fresh (k : string) (v : pyval) (d : list (string * pyval)) :
  ~ In k (List.map fst d) -> dict_set k v d = d ++ [(k, v)].
Proof.
  induction d as [|[k' v'] d IH]; intros Hk; [reflexivity|].
  cbn [dict_set]. cbn [List.map fst In] in Hk.
  destruct (String.eqb_spec k' k) as [->|Hne]; [tauto|].
  rewrite IH by tauto. reflexivity.
Qed.

Lemma dict_of_pairs_acc (kvs d : list (string * pyval)) :
  NoDup (List.map fst (d ++ kvs)) ->
  fold_left (fun d kv => dict_set (fst kv) (snd kv) d) kvs d = d ++ kvs.
Proof.
  revert d. induction kvs as [|[k v] kvs IH]; intros d Hnd.
  - rewrite app_nil_r. reflexivity.
  - cbn [fold_left fst snd]. rewrite dict_set_fresh.
    + rewrite IH; rewrite <- app_assoc; [reflexivity | exact Hnd].
    + rewrite map_app in Hnd. apply NoDup_app in Hnd as (_ & Hd & _).
      intros Hin. apply (Hd k).
      * apply list_elem_of_In, Hin.
      * cbn. left.
Qed.

Lemma dict_of_pairs_distinct (kvs : list (string * pyval)) :
  NoDup (List.map fst kvs) -> dict_of_pairs kvs = kvs.
Proof. intros H. exact (dict_of_pairs_acc kvs [] H). Qed.

(** *** Any literal value *)

Lemma parse_value_repr (v : pyval) : reads_back v.
Proof.
  induction v as [ | b | z | s | l IH | kvs IH | r] using pyval_nested_ind;
    intros Hlit fuel inside rest Hfuel Hrest.
  - destruct fuel as [|f]; [cbv in Hfuel; lia|].
    apply parse_value_word; auto.
  - destruct fuel as [|f]; [destruct b; cbv in Hfuel; lia|].
    destruct b; apply parse_value_word; auto.
  - destruct fuel as [|f].
    { destruct (repr_head (PInt z) eq_refl) as (c & s & E & _).
      rewrite E in Hfuel. cbn in Hfuel. lia. }
    apply parse_value_int, Hrest.
  - destruct fuel as [|f].
    { pose proof (repr_str_length s). cbn [py_repr] in Hfuel. lia. }
    apply parse_value_str.
  - cbn [literal] in Hlit.
    assert (Hlen : String.length (py_repr (PList l))
                   = S (String.length (elems_text l EmptyString))).
    { rewrite <- (append_nil_r (py_repr (PList l))), repr_list. reflexivity. }
    rewrite Hlen in Hfuel. destruct fuel as [|f]; [lia|].
    rewrite repr_list, parse_value_open_list, parse_items_elems;
      [reflexivity | exact IH | exact Hlit | lia].
  - cbn [literal] in Hlit. apply andb_prop in Hlit as [Hnd Hlit].
    apply bool_decide_eq_true in Hnd.
    assert (Hlen : String.length (py_repr (PDict kvs))
                   = S (String.length (pairs_text kvs EmptyString))).
    { rewrite <- (append_nil_r (py_repr (PDict kvs))), repr_dict. reflexivity. }
    rewrite Hlen in Hfuel. destruct fuel as [|f]; [lia|].
    rewrite repr_dict, parse_value_open_dict, parse_pairs_entries;
      [| exact IH | exact Hlit | lia].
    rewrite dict_of_pairs_distinct by exact Hnd. reflexivity.
  - discriminate Hlit.
Qed.

Lemma read_display_repr (v : pyval) :
  literal v = true -> read_display (py_repr v) = Some v.
Proof.
  intros Hlit. unfold read_display.
  rewrite <- (append_nil_r (py_repr v)) at 2.
  rewrite (parse_value_repr v Hlit); [reflexivity | lia | reflexivity].
Qed.

(** The display of a value of the fragment, within the limits, evaluates
    to the value in every scope. *)
Lemma py_eval_repr (scope : string -> option pyval) (v : pyval) :
  literal v = true -> within_limits v = true ->
  py_eval scope (py_repr v) = Some v.
Proof.
  intros Hlit Hlim. unfold py_eval.
  rewrite (read_display_repr v Hlit), Hlim. reflexivity.
Qed.

(** ** The printed line and [strip] *)

Lemma rstrip_all_space (t : string) :
  all_chars is_space t = true -> rstrip t = EmptyString.
Proof.
  induction t as [|c t IH]; [reflexivity|].
  cbn [all_chars rstrip]. intros H. apply andb_prop in H as [Hc Ht].
  rewrite IH, Hc by exact Ht. reflexivity.
Qed.

Lemma rstrip_keep (s : string) (c : ascii) (t : string) :
  is_space c = false -> all_chars is_space t = true ->
  rstrip (s +:+ String c t) = s +:+ String c EmptyString.
Proof.
  intros Hc Ht. induction s as [|x s IH].
  - rewrite !append_nil_l. cbn [rstrip]. rewrite rstrip_all_space, Hc by exact Ht.
    reflexivity.
  - rewrite !append_cons. cbn [rstrip]. rewrite IH.
    destruct s; reflexivity.
Qed.

Lemma ends_solid_cons (x : ascii) (s : string) :
  ends_solid s -> ends_solid (String x s).
Proof.
  intros (s' & c & -> & Hc). exists (String x s'), c. split; [reflexivity | exact Hc].
Qed.

Lemma ends_solid_append (a b : string) : ends_solid b -> ends_solid (a +:+ b).
Proof.
  intros (s' & c & -> & Hc). exists (a +:+ s'), c.
  split; [now rewrite append_assoc | exact Hc].
Qed.

Lemma ends_solid_one (c : ascii) : is_space c = false -> ends_solid (String c EmptyString).
Proof. intros Hc. exists EmptyString, c. split; [reflexivity | exact Hc]. Qed.

Lemma digit_not_space (c : ascii) : is_digit c = true -> is_space c = false.
Proof. each_char c; cbv; congruence. Qed.

Lemma digits_end_solid (s : string) :
  s <> EmptyString -> all_chars is_digit s = true -> ends_solid s.
Proof.
  induction s as [|c s IH]; intros Hs Hd; [congruence|].
  cbn [all_chars] in Hd. apply andb_prop in Hd as [Hc Hd].
  destruct s as [|c' s'].
  - apply ends_solid_one, digit_not_space, Hc.
  - apply ends_solid_cons, IH; [discriminate | exact Hd].
Qed.

Lemma uint_all_digits (d : uint) :
  all_chars is_digit (NilEmpty.string_of_uint d) = true.
Proof. induction d; cbn [NilEmpty.string_of_uint all_chars]; auto. Qed.

Lemma uint_ends_solid (d : uint) :
  d <> Nil -> ends_solid (NilEmpty.string_of_uint d).
Proof.
  intros Hd. apply digits_end_solid; [|apply uint_all_digits].
  destruct d; [congruence | discriminate..].
Qed.

Lemma str_int_ends_solid (z : Z) : ends_solid (str_int z).
Proof.
  destruct z as [|p|p].
  - apply ends_solid_one. reflexivity.
  - unfold str_int. cbn [Z.to_int NilZero.string_of_int]. rewrite string_of_pos.
    apply uint_ends_solid, Unsigned.to_uint_nonnil.
  - rewrite str_int_neg. apply ends_solid_cons.
    unfold str_int. cbn [Z.to_int NilZero.string_of_int]. rewrite string_of_pos.
    apply uint_ends_solid, Unsigned.to_uint_nonnil.
Qed.

Lemma repr_ends_solid (v : pyval) : literal v = true -> ends_solid (py_repr v).
Proof.
  destruct v as [ | [|] | z | s | l | kvs | r]; cbn [literal py_repr];
    try discriminate; intros _.
  - exists "Non", "e"%char. split; reflexivity.
  - exists "Tru", "e"%char. split; reflexivity.
  - exists "Fals", "e"%char. split; reflexivity.
  - apply str_int_ends_solid.
  - unfold repr_str. cbv zeta. apply ends_solid_cons, ends_solid_append, ends_solid_one.
    destruct (repr_quote_cases s) as [-> | ->]; reflexivity.
  - apply ends_solid_append, ends_solid_append, ends_solid_one. reflexivity.
  - apply ends_solid_append, ends_solid_append, ends_solid_one. reflexivity.
Qed.

Lemma strip_printed_repr (v : pyval) :
  literal v = true -> strip (py_repr v +:+ NL) = py_repr v.
Proof.
  intros Hlit. unfold strip.
  destruct (repr_head v Hlit) as (c & s & E & Hc).
  destruct (head_ok_facts c Hc) as (_ & _ & Hsp & _).
  assert (Hl : lstrip (py_repr v +:+ NL) = py_repr v +:+ NL).
  { rewrite E, append_cons. cbn [lstrip]. rewrite Hsp. reflexivity. }
  rewrite Hl.
  destruct (repr_ends_solid v Hlit) as (s' & c' & -> & Hc').
  rewrite append_assoc, append_cons, append_nil_l.
  apply rstrip_keep; [exact Hc' | reflexivity].
Qed.

Lemma repr_not_error_line (v : pyval) :
  literal v = true ->
  negb (String.eqb (py_repr v) EmptyString)
  && negb (startswith "ERROR:" (py_repr v)) = true.
Proof.
  intros Hlit. destruct (repr_head v Hlit) as (c & s & -> & Hc).
  destruct (head_ok_facts c Hc) as (_ & _ & _ & _ & _ & HE).
  cbn [String.eqb startswith]. rewrite Ascii.eqb_sym, HE. reflexivity.
Qed.

(** ** The literals substituted into the script *)

Lemma parse_str_plain (p rest : string) :
  plain_path p = true ->
  parse_str DQUOTE (p +:+ String DQUOTE rest) = Some (p, rest).
Proof.
  induction p as [|c p IH]; intros Hp.
  - reflexivity.
  - unfold plain_path in Hp. cbn [all_chars] in Hp.
    apply andb_prop in Hp as [Hc Hp]. apply negb_true_iff in Hc.
    apply orb_false_elim in Hc as [Hc Hnul].
    apply orb_false_elim in Hc as [Hc Hcr]. apply orb_false_elim in Hc as [Hc Hlf].
    apply orb_false_elim in Hc as [Hq Hbs].
    rewrite append_cons. cbn [parse_str].
    rewrite Hq, Hlf, Hcr, Hnul, Hbs. cbn [orb]. rewrite (IH Hp). reflexivity.
Qed.

Lemma read_path_literal (p : string) :
  plain_path p = true ->
  read_display (String DQUOTE (p +:+ String DQUOTE EmptyString)) = Some (PStr p).
Proof.
  intros Hp. unfold read_display.
  rewrite (parse_value_quote _ false DQUOTE _ (or_intror eq_refl)).
  rewrite (parse_str_plain p EmptyString Hp). reflexivity.
Qed.

Lemma correct_inputs_literal (function_name : string) :
  literal (_get_input_for_function function_name) = true.
Proof.
  unfold _get_input_for_function.
  destruct (correct_inputs !! function_name) as [d|] eqn:E; [|reflexivity].
  cbn [default]. unfold correct_inputs in E.
  apply elem_of_list_to_map_2 in E.
  change (literal (snd (function_name, d)) = true).
  revert E. generalize (function_name, d). apply Forall_forall.
  repeat constructor.
Qed.

Lemma correct_inputs_within_limits (function_name : string) :
  within_limits (_get_input_for_function function_name) = true.
Proof.
  unfold _get_input_for_function.
  destruct (correct_inputs !! function_name) as [d|] eqn:E;
    [|vm_compute; reflexivity].
  cbn [default]. unfold correct_inputs in E.
  apply elem_of_list_to_map_2 in E.
  change (within_limits (snd (function_name, d)) = true).
  revert E. generalize (function_name, d). apply Forall_forall.
  repeat (constructor; [vm_compute; reflexivity|]). constructor.
Qed.

(* ===================================================================== *)
(** ** Lemmas: running the profiler                                       *)
(* ===================================================================== *)

Ltac run_monad :=
  cbv [mbind M_bind bind mret M_ret ret print emit modify Popen sleep
       load_and_call send_signal wait terminate subprocess_run unlink
       write_temp_script try_finally try_except get_world maybe_raise raise
       a_popen a_pid a_workload a_send_signal a_exits_on_sigint a_terminate
       a_exits_on_terminate s_tmp s_write s_run_summary s_run_full s_eval
       proc_started proc_running set_collector add_event set_out set_fs
       collector out fs log any_exception getitem fst snd
       returned field profile is_Exception is_TimeoutExpired
       orderly raises_only_Exception from_option_exc attach_workload_result
       timed_out spawn_timed_out andb].

(** One step of symbolic execution: case analysis on whatever the program
    is waiting for (an answer of the environment, a test on a value). *)
Ltac step :=
  match goal with
  | |- context [match ?x with _ => _ end] =>
      match x with
      | context [match _ with _ => _ end] => fail 1
      | _ => destruct x eqn:?
      end
  end.

Ltac run_all := run_monad; repeat (step; run_monad).

(** Run the program in the premise, keeping the conclusion folded. *)
Ltac run_premise :=
  match goal with
  | |- _ -> ?P =>
      let concl := fresh "concl" in
      set (concl := P); run_all; subst concl
  end.

(** The premise [Some d' = Some d] of a call that returned. *)
Ltac returned_dict d :=
  let Hd := fresh "Hd" in
  intros Hd; try discriminate Hd; apply (inj Some) in Hd; subst d.

Ltac norm_log := repeat rewrite <- app_assoc; cbn [app].

Lemma mkdict_lookup (l : list (string * pyval)) (k : string) :
  mkdict l !! k = assoc k l.
Proof.
  unfold mkdict. induction l as [|[k' v] l IH]; [reflexivity|].
  cbn [list_to_map foldr assoc uncurry]. rewrite lookup_insert.
  destruct (String.eqb_spec k' k) as [->|Hne].
  - rewrite decide_True by reflexivity. reflexivity.
  - rewrite decide_False by exact Hne. exact IH.
Qed.

Ltac dict_simpl :=
  unfold is_set, succeeded;
  rewrite ?mkdict_lookup;
  cbn [assoc String.eqb Ascii.eqb Bool.eqb is_not_None].

Lemma field_of_returned (r : result result_dict * world) (d : result_dict)
  (k : string) :
  returned r = Some d -> field r k = d !! k.
Proof. unfold field. intros ->. reflexivity. Qed.

Lemma print_then {A} (s : string) (k : M A) (w : world) :
  (print s ;; k) w = k (set_out (fun o => o ++ [s]) w).
Proof. reflexivity. Qed.

Lemma for_each_print {A} (l : list A) (g : A -> string) (w : world) :
  for_each l (fun x => print (g x)) w
  = (Ok tt, set_out (fun o => o ++ List.map g l) w).
Proof.
  revert w. induction l as [|x l IH]; intros [o f cl lg].
  - cbn [for_each List.map]. run_monad. rewrite app_nil_r. reflexivity.
  - cbn [for_each List.map]. run_monad. rewrite IH. run_monad.
    rewrite <- app_assoc. reflexivity.
Qed.

(** *** The summary run decides the outcome *)


Lemma parse_function_output_exclusive (scope : string -> option pyval)
  (cp : CompletedProcess) :
  fst (parse_function_output scope cp) = PNone
  \/ snd (parse_function_output scope cp) = PNone.
Proof.
  unfold parse_function_output.
  repeat case_match; cbn [fst snd]; auto.
Qed.

(** The dictionary of a spawn-mode call whose two runs complete. *)
Lemma spawn_completed (e : spawn_env) (fi : function_info) (w : world)
  (cp1 cp2 : CompletedProcess) :
  s_write e = None -> s_run_summary e = Ok cp1 -> s_run_full e = Ok cp2 ->
  returned (profile_full_python e fi w) =
    Some (mkdict [("function_name", PStr (name fi));
                  ("profiling_mode", PStr "full_python");
                  ("success", PBool true);
                  ("function_result",
                   fst (parse_function_output (s_eval e) cp1));
                  ("error", snd (parse_function_output (s_eval e) cp1));
                  ("input_data", _get_input_for_function (name fi));
                  ("strace_summary_file",
                   PStr ("fullpython_summary_" +:+ name fi +:+ ".txt"));
                  ("strace_full_file",
                   PStr ("fullpython_full_" +:+ name fi +:+ ".txt"));
                  ("stdout", PStr (stdout cp1));
                  ("stderr", PStr (stderr cp1))]).
Proof.
  destruct e as [tmp wr r1 r2 ev], w as [o f cl l].
  cbn [s_write s_run_summary s_run_full]. intros -> -> ->.
  unfold profile_full_python.
  run_all; reflexivity.
Qed.

(** The two literals of the transient script read back as the path and
    the input they were written from. *)
Lemma script_calls_plain (fi : function_info) :
  plain_path (function_path fi) = true ->
  transient_script_calls fi
  = Some (function_path fi, _get_input_for_function (name fi)).
Proof.
  intros Hp. unfold transient_script_calls, script_calls.
  rewrite (read_path_literal _ Hp).
  rewrite (read_display_repr _ (correct_inputs_literal (name fi))).
  rewrite (correct_inputs_within_limits (name fi)).
  reflexivity.
Qed.

Lemma run_script_plain (c : child_env) (fi : function_info) :
  plain_path (function_path fi) = true ->
  printable (c_workload c (function_path fi)
               (_get_input_for_function (name fi))) = true ->
  run_transient_script c fi
  = script_outcome (c_workload c (function_path fi)
                      (_get_input_for_function (name fi))).
Proof.
  intros Hp Hpr. unfold run_transient_script, run_script.
  change (script_calls _ _) with (transient_script_calls fi).
  rewrite (script_calls_plain fi Hp). cbv zeta. rewrite Hpr. reflexivity.
Qed.

(** *** Result dictionaries and the report *)

Lemma profile_result_well_formed (c : call) (fi : function_info) (w : world)
  (d : result_dict) :
  returned (profile c fi w) = Some d -> well_formed_result d = true.
Proof.
  destruct c as [e summary | e], w as [o f cl l].
  - destruct e as [pid popen wl sig ex1 term ex2].
    unfold profile, profile_function_in_runtime.
    run_premise; returned_dict d; reflexivity.
  - destruct e as [tmp wr r1 r2 ev].
    unfold profile, profile_full_python.
    run_premise; returned_dict d; reflexivity.
Qed.

Lemma report_detail_prints (title : string) (d : result_dict) (w : world) :
  well_formed_result d = true ->
  report_detail title d w
  = (Ok tt, set_out (fun o => o ++ report_block title d) w).
Proof.
  destruct w as [o f cl lg].
  unfold well_formed_result, report_detail, report_block, succeeded, detail_lines.
  run_monad.
  destruct (d !! "success") as [[| [|] | | | | |]|]; try discriminate.
  - destruct (d !! "function_result") as [fr|]; try discriminate.
    destruct (d !! "error") as [err|]; try discriminate.
    intros _. cbv [default id from_option]. cbn [truthy]. run_monad.
    destruct (is_not_None fr); run_monad; destruct (truthy err); run_monad;
      norm_log; reflexivity.
  - intros _. cbn [truthy]. rewrite app_nil_r. reflexivity.
Qed.

(** *** Calls that raise nothing but [Exception] *)

Lemma orderly_call_records_input (c : call) (fi : function_info) (w : world) :
  orderly c fi = true ->
  field (profile c fi w) "input_data" = Some (_get_input_for_function (name fi)).
Proof.
  destruct c as [e summary | e], w as [o f cl l].
  - destruct e as [pid popen wl sig ex1 term ex2].
    unfold profile, profile_function_in_runtime.
    run_all; intros; try discriminate; reflexivity.
  - destruct e as [tmp wr r1 r2 ev].
    unfold profile, profile_full_python.
    run_all; intros; try discriminate; reflexivity.
Qed.

Lemma orderly_call_returns (c : call) (fi : function_info) (w : world) :
  orderly c fi = true ->
  exists d w', profile c fi w = (Ok d, w') /\ well_formed_result d = true.
Proof.
  intros Hc.
  pose proof (orderly_call_records_input c fi w Hc) as Hin.
  pose proof (profile_result_well_formed c fi w) as Hwf.
  unfold field, returned in Hin, Hwf.
  destruct (profile c fi w) as [[d|ex] w']; cbn [fst] in Hin, Hwf.
  - exists d, w'. split; [reflexivity | apply Hwf; reflexivity].
  - discriminate Hin.
Qed.

Lemma bind_returned {A B} (m : M A) (k : A -> M B) (w w' : world) (a : A) :
  m w = (Ok a, w') -> (m ≫= k) w = k a w'.
Proof. intros E. unfold mbind, M_bind, bind. rewrite E. reflexivity. Qed.

Lemma script_present (tmp s : string) (f : gmap string string) :
  bool_decide (is_Some (<[tmp:=s]> (<[tmp:=EmptyString]> f) !! tmp)) = true.
Proof. apply bool_decide_eq_true. rewrite lookup_insert_eq. eauto. Qed.

Lemma profile_frame (c : call) (fi : function_info) (w : world) :
  fst (profile c fi w) = fst (profile c fi init_world)
  /\ out (snd (profile c fi w)) = out w ++ printed c fi
  /\ log (snd (profile c fi w)) = log w ++ trace c fi.
Proof.
  unfold printed, trace, init_world.
  destruct c as [e summary | e], w as [o f cl l].
  - destruct e as [pid popen wl sig ex1 term ex2].
    unfold profile, profile_function_in_runtime.
    run_all; repeat split; cbn [app]; norm_log; reflexivity.
  - destruct e as [tmp wr r1 r2 ev].
    unfold profile, profile_full_python.
    run_monad.
    repeat (first [rewrite !script_present | step]; run_monad).
    all: repeat split; cbn [app]; norm_log; reflexivity.
Qed.

Lemma show_results_prints (rs rf fp : result_dict) (w : world) :
  well_formed_result rf = true -> well_formed_result fp = true ->
  show_results rs rf fp w
  = (Ok tt,
     set_out (fun o => o ++ report_block "Full Python profiling:" fp)
       (set_out (fun o => o ++ report_block "Runtime-only profiling (full):" rf)
          (set_out (fun o => o ++ [String LF "=== Final Results ==="]) w))).
Proof.
  intros H2 H3. unfold show_results. rewrite print_then.
  rewrite (bind_returned _ _ _ _ _ (report_detail_prints _ _ _ H2)).
  rewrite (report_detail_prints _ _ _ H3). reflexivity.
Qed.

Lemma orderly_call_runs (c : call) (fi : function_info) (w : world) :
  orderly c fi = true ->
  exists d w',
    profile c fi w = (Ok d, w') /\ well_formed_result d = true
    /\ returned (profile c fi init_world) = Some d
    /\ out w' = out w ++ printed c fi
    /\ log w' = log w ++ trace c fi.
Proof.
  intros Hc.
  destruct (orderly_call_returns c fi w Hc) as (d & w' & E & Hwf).
  exists d, w'. split; [exact E | split; [exact Hwf |]].
  pose proof (profile_frame c fi w) as (Hr & Ho & Hl).
  rewrite E in Hr, Ho, Hl. cbn [fst snd] in Hr, Ho, Hl.
  unfold returned. rewrite <- Hr. auto.
Qed.

Lemma rstrip_append_NL (s : string) : rstrip (s +:+ NL) = rstrip s.
Proof.
  induction s as [|c s IH].
  - reflexivity.
  - rewrite append_cons. cbn [rstrip]. rewrite IH. reflexivity.
Qed.

Lemma strip_append_NL (s : string) : strip (s +:+ NL) = strip s.
Proof.
  unfold strip. induction s as [|c s IH].
  - reflexivity.
  - rewrite append_cons. cbn [lstrip]. destruct (is_space c).
    + exact IH.
    + rewrite <- append_cons. apply rstrip_append_NL.
Qed.


(** *** Displays are never taken for error lines *)


(** *** The handler calls among the requests *)




(** *** [main] on a target *)


(* ===================================================================== *)
(** ** The claims of the specification                                    *)
(* ===================================================================== *)

(** C1 (amended).  The artifact path recorded in the result of an
    attach-mode call on workload [N] is [runtime_summary_N.txt] when the
    granularity is summary and [runtime_full_N.txt] when it is full; the two
    paths recorded by a spawn-mode call are [fullpython_summary_N.txt] and
    [fullpython_full_N.txt].  The paths are recorded exactly when the result
    has [success] true. *)
Theorem artifact_naming (c : call) (fi : function_info) (w : world)
  (d : result_dict) :
  returned (profile c fi w) = Some d ->
  match c with
  | Attach _ summary =>
      d !! "strace_file" =
        (if succeeded d
         then Some (PStr ("runtime_" +:+ (if summary then "summary" else "full")
                          +:+ "_" +:+ name fi +:+ ".txt"))
         else None)
  | Spawn _ =>
      d !! "strace_summary_file" =
        (if succeeded d
         then Some (PStr ("fullpython_summary_" +:+ name fi +:+ ".txt"))
         else None)
      /\ d !! "strace_full_file" =
        (if succeeded d
         then Some (PStr ("fullpython_full_" +:+ name fi +:+ ".txt"))
         else None)
  end.
Proof.
  destruct c as [e summary | e], w as [o f cl l].
  - unfold profile, profile_function_in_runtime.
    destruct e as [pid popen wl sig ex1 term ex2].
    run_premise; returned_dict d; destruct summary; reflexivity.
  - unfold profile, profile_full_python.
    destruct e as [tmp wr r1 r2 ev].
    run_premise; returned_dict d; split; reflexivity.
Qed.

(** C1, at a summary attach-mode call on workload [x]. *)
Lemma artifact_naming_witness :
  mkdict [("function_name", PStr "x");
          ("profiling_mode", PStr "runtime_summary");
          ("success", PBool true);
          ("function_result", PDict [("result", PInt 42)]);
          ("error", PNone);
          ("input_data", PDict [("data", PStr "test")]);
          ("strace_file", PStr "runtime_summary_x.txt")] !! "strace_file"
  = Some (PStr "runtime_summary_x.txt").
Proof.
  exact (artifact_naming (Attach (calm returns_42) true) sample_function
           init_world _ eq_refl).
Defined.

(** C1 as stated fails: the attach-mode artifact of workload [x] is
    [runtime_summary_x.txt], not [attach_summary_x.txt]. *)
Lemma attach_artifact_is_not_attach_prefixed :
  field (profile (Attach (calm returns_42) true) sample_function init_world)
        "strace_file" = Some (PStr "runtime_summary_x.txt")
  /\ field (profile (Attach (calm returns_42) true) sample_function init_world)
        "strace_file" <> Some (PStr "attach_summary_x.txt").
Proof. split; [reflexivity | discriminate]. Qed.

(** C2 (amended).  When the collector does not exit within the bounded
    wait after the interrupt, the timeout of the wait is handled as a
    failure of the call: the cleanup terminates the collector and waits
    again (at most 5 s), and the call returns a result with [success] false
    whose error is the text of the timeout, without function result and
    without artifact path. *)
Theorem collector_ignores_interrupt (e : attach_env) (fi : function_info)
  (summary : bool) (w : world) :
  a_popen e = None ->
  raises_only_Exception (attach_workload_result e fi) = true ->
  a_send_signal e = None ->
  a_exits_on_sigint e = false ->
  let r := profile_function_in_runtime e fi summary w in
  let cmd := attach_cmd (a_pid e) summary (name fi) in
  field r "success" = Some (PBool false)
  /\ field r "error" = Some (PStr (str_exc (TimeoutExpired cmd 10)))
  /\ field r "function_result" = None
  /\ field r "strace_file" = None
  /\ log (snd r) =
       log w ++ [EvPopen cmd; EvSleep 1;
                 EvCall (function_path fi) (_get_input_for_function (name fi));
                 EvSendSignal SIGINT; EvWait 10; EvSendSignal SIGTERM]
             ++ match a_terminate e with None => [EvWait 5] | Some _ => [] end.
Proof.
  destruct e as [pid popen wl sig ex1 term ex2], w as [o f cl l].
  unfold attach_workload_result, raises_only_Exception.
  cbn [a_popen a_workload a_send_signal a_exits_on_sigint a_terminate a_pid].
  intros -> Hwl -> ->.
  unfold profile_function_in_runtime, attach_cmd.
  destruct (w_result (wl (function_path fi) (_get_input_for_function (name fi))))
    as [v|ex] eqn:Hr.
  - run_monad. rewrite Hr.
    run_all; destruct summary; repeat split; norm_log; reflexivity.
  - destruct ex; try discriminate Hwl.
    all: run_monad; rewrite Hr; run_all; destruct summary; repeat split;
      norm_log; reflexivity.
Qed.

(** C2, at a collector that ignores the interrupt. *)
Lemma collector_ignores_interrupt_witness :
  let r := profile_function_in_runtime (stubborn returns_42) sample_function
             true init_world in
  field r "success" = Some (PBool false)
  /\ field r "error" =
       Some (PStr "Command '['strace', '-c', '-p', '4242', '-o', 'runtime_summary_x.txt']' timed out after 10 seconds")
  /\ field r "function_result" = None
  /\ field r "strace_file" = None
  /\ log (snd r) =
       [EvPopen ["strace"; "-c"; "-p"; "4242"; "-o"; "runtime_summary_x.txt"];
        EvSleep 1;
        EvCall "benchmarks/100.webapps/x/python/function.py"
               (PDict [("data", PStr "test")]);
        EvSendSignal SIGINT; EvWait 10; EvSendSignal SIGTERM; EvWait 5].
Proof.
  exact (collector_ignores_interrupt (stubborn returns_42) sample_function true
           init_world eq_refl eq_refl eq_refl eq_refl).
Defined.

(** C2 as stated fails: with a collector that ignores the interrupt the
    result has [success] false. *)
Lemma ignored_interrupt_reports_failure :
  field (profile_function_in_runtime (stubborn returns_42) sample_function
           true init_world) "success" = Some (PBool false)
  /\ field (profile_function_in_runtime (stubborn returns_42) sample_function
           true init_world) "success" <> Some (PBool true).
Proof. split; [reflexivity | discriminate]. Qed.

(** C3 (amended).  When loading the module or calling the handler raises
    an [Exception], the interrupt is still sent to the collector, followed
    by the bounded wait when sending succeeded; and when the collector then
    exits within the wait, the result has [success] true, the text of the
    fault as error and no function result. *)
Theorem workload_fault_captured (e : attach_env) (fi : function_info)
  (summary : bool) (w : world) (ex : pyexc) :
  a_popen e = None ->
  attach_workload_result e fi = Raise ex ->
  is_Exception ex = true ->
  let r := profile_function_in_runtime e fi summary w in
  let cmd := attach_cmd (a_pid e) summary (name fi) in
  let started :=
    log w ++ [EvPopen cmd; EvSleep 1;
              EvCall (function_path fi) (_get_input_for_function (name fi));
              EvSendSignal SIGINT] in
  (exists rest, log (snd r) = started ++ rest)
  /\ (a_send_signal e = None ->
      exists rest, log (snd r) = started ++ EvWait 10 :: rest)
  /\ (a_send_signal e = None -> a_exits_on_sigint e = true ->
      field r "success" = Some (PBool true)
      /\ field r "error" = Some (PStr (str_exc ex))
      /\ field r "function_result" = Some PNone
      /\ log (snd r) = started ++ [EvWait 10]).
Proof.
  destruct e as [pid popen wl sig ex1 term ex2], w as [o f cl l].
  unfold attach_workload_result.
  cbn [a_popen a_workload a_send_signal a_exits_on_sigint a_terminate a_pid].
  intros -> Hr Hex.
  unfold profile_function_in_runtime, attach_cmd.
  destruct ex; try discriminate Hex.
  all: run_monad; rewrite Hr; run_monad.
  all: split; [|split].
  all: try (intros ->); try (intros ->).
  all: run_all; destruct summary; try (eexists; norm_log; reflexivity).
  all: repeat split; norm_log; reflexivity.
Qed.

(** C3, at a handler that raises [Exception("boom")]. *)
Lemma workload_fault_captured_witness :
  let r := profile_function_in_runtime (calm raises_boom) sample_function
             false init_world in
  field r "success" = Some (PBool true)
  /\ field r "error" = Some (PStr "boom")
  /\ field r "function_result" = Some PNone
  /\ log (snd r) =
       [EvPopen ["strace"; "-p"; "4242"; "-o"; "runtime_full_x.txt"];
        EvSleep 1;
        EvCall "benchmarks/100.webapps/x/python/function.py"
               (PDict [("data", PStr "test")]);
        EvSendSignal SIGINT; EvWait 10].
Proof.
  exact (proj2 (proj2 (workload_fault_captured (calm raises_boom) sample_function
                         false init_world (Exception "boom")
                         eq_refl eq_refl eq_refl)) eq_refl eq_refl).
Defined.

(** C3 as stated fails twice.  When the handler raises and the collector
    then ignores the interrupt, the result has [success] false and the
    fault is not its error.  When the handler raises [SystemExit], no
    result is returned and no interrupt is sent. *)
Lemma fault_without_success :
  (let r := profile_function_in_runtime (stubborn raises_boom) sample_function
              true init_world in
   field r "success" = Some (PBool false)
   /\ field r "error" <> Some (PStr "boom"))
  /\ (let r := profile_function_in_runtime (calm exits_bye) sample_function
                 true init_world in
      returned r = None
      /\ ~ In (EvSendSignal SIGINT) (log (snd r))).
Proof.
  split; split; try reflexivity; try discriminate.
  vm_compute. intuition discriminate.
Qed.

(** C4.  A spawn-mode call whose collector run exceeds the timeout returns
    a result with [success] false and the timeout as its outcome, and the
    transient script is gone when the call ends; the script is unlinked on
    every exit of the call once it has been written. *)
Theorem timeout_result_and_cleanup (e : spawn_env) (fi : function_info)
  (w : world) :
  s_write e = None ->
  let r := profile_full_python e fi w in
  fs (snd r) !! s_tmp e = None
  /\ In (EvUnlink (s_tmp e)) (log (snd r))
  /\ (spawn_timed_out e = true ->
      field r "success" = Some (PBool false)
      /\ field r "error" = Some (PStr "Full Python execution timed out")
      /\ field r "function_result" = None).
Proof.
  destruct e as [tmp wr r1 r2 ev], w as [o f cl l].
  cbn [s_write s_tmp]. intros ->.
  unfold profile_full_python.
  assert (Hdel : forall s,
             delete tmp (<[tmp:=s]> (<[tmp:=EmptyString]> f)) !! tmp = None)
    by (intros; apply lookup_delete_eq).
  assert (Hin : forall s,
             bool_decide (is_Some (<[tmp:=s]> (<[tmp:=EmptyString]> f) !! tmp))
             = true)
    by (intros; apply bool_decide_eq_true; rewrite lookup_insert_eq; eauto).
  run_all.
  all: try match goal with
           | H : bool_decide _ = false |- _ => rewrite Hin in H; discriminate H
           end.
  all: split; [apply Hdel|].
  all: split; [norm_log; rewrite in_app_iff; cbn; tauto|].
  all: intros Ht; try discriminate Ht; repeat split; reflexivity.
Qed.

(** C4, at a first collector run that exceeds its bound. *)
Lemma timeout_result_and_cleanup_witness :
  let r := profile_full_python (slow sample_function) sample_function init_world in
  fs (snd r) !! "/tmp/tmpk3v9x1.py" = None
  /\ field r "success" = Some (PBool false)
  /\ field r "error" = Some (PStr "Full Python execution timed out")
  /\ field r "function_result" = None.
Proof.
  pose proof (timeout_result_and_cleanup (slow sample_function) sample_function
                init_world eq_refl) as H.
  cbv zeta in H. destruct H as (H1 & _ & H2).
  split; [exact H1 | exact (H2 eq_refl)].
Defined.







(** C7 (amended).  Take a spawn-mode call whose script could be written
    (the path has no quote, backslash, line break or NUL), whose two
    collector runs return and whose first run passes the script's streams
    and exit status through, and a handler that writes nothing on standard
    output and returns [v].  Then the result has [success] true, and its
    returned value is [v] exactly when the line the script prints for [v] is
    decoded: stripped, it is not empty, does not start with [ERROR:], and
    evaluates to [v] in the scope of the call; the error is then [None].
    Here [v] is within the limits of the interpreter (integers of at most
    4300 digits, nesting at most 64 deep); and the line is decoded in every
    scope when [v] is made of [None], booleans, integers, strings, lists and
    string-keyed dictionaries. *)
Theorem return_value_round_trip (c : child_env) (e : spawn_env)
  (fi : function_info) (w : world) (v : pyval) (err : string)
  (cp2 : CompletedProcess) :
  s_write e = None ->
  s_run_summary e = Ok (run_transient_script c fi) ->
  s_run_full e = Ok cp2 ->
  plain_path (function_path fi) = true ->
  c_workload c (function_path fi) (_get_input_for_function (name fi))
  = mkRun EmptyString err (Ok v) ->
  within_limits v = true ->
  let r := profile_full_python e fi w in
  (literal v = true -> decodes (s_eval e) v)
  /\ (field r "function_result" = Some v <-> decodes (s_eval e) v)
  /\ field r "success" = Some (PBool true)
  /\ (decodes (s_eval e) v -> field r "error" = Some PNone).
Proof.
  intros Hw H1 H2 Hp Hwl Hlim r.
  assert (Hlit : literal v = true -> decodes (s_eval e) v).
  { intros Hlit. unfold decodes. cbv zeta.
    rewrite (strip_printed_repr v Hlit).
    pose proof (repr_not_error_line v Hlit) as Hne.
    apply andb_prop in Hne as [Hne Herr].
    apply negb_true_iff in Hne, Herr.
    split; [intros E; rewrite E in Hne; discriminate Hne|].
    split; [exact Herr | apply py_eval_repr; assumption]. }
  split; [exact Hlit|].
  pose proof (spawn_completed e fi w _ cp2 Hw H1 H2) as Hr.
  fold r in Hr.
  rewrite !(field_of_returned r _ _ Hr).
  change (mkdict _ !! "error")
    with (Some (snd (parse_function_output (s_eval e)
                       (run_transient_script c fi)))).
  change (mkdict _ !! "function_result")
    with (Some (fst (parse_function_output (s_eval e)
                       (run_transient_script c fi)))).
  change (mkdict _ !! "success") with (Some (PBool true)).
  rewrite (run_script_plain c fi Hp)
    by (rewrite Hwl; unfold printable; cbn [w_result]; exact Hlim).
  rewrite Hwl.
  unfold script_outcome, parse_function_output.
  cbn [w_result w_stdout w_stderr returncode stdout stderr Z.eqb].
  rewrite append_nil_l.
  split; [|split; [reflexivity|]].
  - unfold decodes. cbv zeta.
    destruct (String.eqb_spec (strip (py_repr v +:+ NL)) EmptyString)
      as [Hempty | Hfull]; cbn [negb andb].
    + split.
      * cbn [fst]. intros [= <-]. vm_compute in Hempty. discriminate Hempty.
      * intros (Hne & _). contradiction.
    + destruct (startswith "ERROR:" (strip (py_repr v +:+ NL))) eqn:Herr;
        cbn [negb].
      * split.
        -- cbn [fst]. intros [= <-]. vm_compute in Herr. discriminate Herr.
        -- intros (_ & Hs & _). discriminate Hs.
      * destruct (py_eval (s_eval e) (strip (py_repr v +:+ NL))) as [v'|] eqn:Hev;
          cbn [fst].
        -- split.
           ++ intros [= ->].
              split; [exact Hfull | split; reflexivity].
           ++ intros (_ & _ & [= ->]). reflexivity.
        -- split.
           ++ intros [= <-]. vm_compute in Hev. discriminate Hev.
           ++ intros (_ & _ & Hn). discriminate Hn.
  - intros _. repeat case_match; reflexivity.
Qed.

(** C7, at a handler that returns [{'result': 42}], whose display is read
    in every scope, and at one that returns [{'result': 1.5}], which the
    sample scope evaluates. *)
Lemma return_value_round_trip_witness :
  (let r := profile_full_python (transparent returns_42 sample_function)
              sample_function init_world in
   field r "function_result" = Some (PDict [("result", PInt 42)])
   /\ field r "success" = Some (PBool true)
   /\ field r "error" = Some PNone)
  /\ (let r := profile_full_python
                 (transparent returns_one_and_a_half sample_function)
                 sample_function init_world in
      field r "function_result" = Some (PDict [("result", PObj "1.5")])).
Proof.
  split.
  - pose proof (return_value_round_trip (child returns_42)
                  (transparent returns_42 sample_function) sample_function
                  init_world (PDict [("result", PInt 42)]) EmptyString
                  (run_transient_script (child returns_42) sample_function)
                  eq_refl eq_refl eq_refl eq_refl eq_refl eq_refl) as H.
    cbv zeta in H. destruct H as (Hd & Hv & Hs & He).
    assert (D : decodes sample_scope (PDict [("result", PInt 42)]))
      by (apply Hd; reflexivity).
    split; [apply Hv, D | split; [exact Hs | exact (He D)]].
  - pose proof (return_value_round_trip (child returns_one_and_a_half)
                  (transparent returns_one_and_a_half sample_function)
                  sample_function init_world (PDict [("result", PObj "1.5")])
                  EmptyString
                  (run_transient_script (child returns_one_and_a_half)
                     sample_function)
                  eq_refl eq_refl eq_refl eq_refl eq_refl eq_refl) as H.
    cbv zeta in H. destruct H as (_ & Hv & _).
    apply Hv. unfold decodes. cbv zeta.
    split; [vm_compute; discriminate | split; vm_compute; reflexivity].
Defined.

(** C7 as stated fails.  A handler that returns [float('nan')] gives a
    result whose returned value is [None]: the script prints [nan], which
    is no name of the profiler's scope.  So does a handler that prints a
    line of its own before returning [{'result': 42}]. *)
Lemma returned_value_lost :
  (let r := profile_full_python (transparent returns_nan sample_function)
              sample_function init_world in
   field r "stdout" = Some (PStr ("nan" +:+ NL))
   /\ field r "function_result" = Some PNone
   /\ field r "function_result" <> Some (PObj "nan"))
  /\ (let r := profile_full_python
                 (transparent returns_42_after_printing sample_function)
                 sample_function init_world in
      field r "stdout"
      = Some (PStr ("starting" +:+ NL +:+ "{'result': 42}" +:+ NL))
      /\ field r "function_result" = Some PNone
      /\ field r "function_result" <> Some (PDict [("result", PInt 42)])).
Proof. vm_compute. repeat split; discriminate. Qed.

(** C8 (amended).  The final stage of [main] prints the detail of the
    attach-full result and of the spawn result when their [success] flag is
    true and skips each of them when it is false; nothing of the
    attach-summary result is printed.  When no function was resolved, [main]
    prints that none was found and lists the first five functions. *)
Theorem final_report (c2 c3 : call) (fi : function_info) (w2 w3 : world)
  (runtime_summary_result runtime_full_result fullpython_result : result_dict)
  (found : list (list string)) (e1 e2 : attach_env) (e3 : spawn_env) (w : world) :
  returned (profile c2 fi w2) = Some runtime_full_result ->
  returned (profile c3 fi w3) = Some fullpython_result ->
  show_results runtime_summary_result runtime_full_result fullpython_result w
  = (Ok tt,
     set_out
       (fun o => o ++ String LF "=== Final Results ==="
                   :: report_block "Runtime-only profiling (full):"
                                   runtime_full_result
                   ++ report_block "Full Python profiling:" fullpython_result)
       w)
  /\ (List.find (fun func => contains "110.dynamic-html" (name func))
                (_discover_functions found) = None ->
      main found e1 e2 e3 w
      = (Ok tt,
         set_out
           (fun o => o ++ banner
                       ++ ["No suitable test function found";
                           "Available functions:"]
                       ++ List.map (fun func => "  - " +:+ name func +:+ " ("
                                                +:+ category func +:+ ")")
                                   (firstn 5 (_discover_functions found)))
           w)).
Proof.
  intros H2 H3.
  apply profile_result_well_formed in H2, H3.
  split.
  - unfold show_results.
    change (print ?s ;; ?k) with (bind (print s) (fun _ => k)).
    unfold bind at 1. destruct w as [o f cl lg]. unfold print at 1.
    change (report_detail ?t ?d ;; ?k) with (bind (report_detail t d) (fun _ => k)).
    unfold bind. rewrite (report_detail_prints _ _ _ H2).
    rewrite (report_detail_prints _ _ _ H3).
    unfold set_out. cbn [out fs collector log]. norm_log. reflexivity.
  - intros Hf. unfold main. rewrite Hf. destruct w as [o f cl lg].
    rewrite !print_then, for_each_print.
    unfold set_out, banner. cbn [out fs collector log]. norm_log. reflexivity.
Qed.

(** C8, at a failed handler in attach-full mode and a timed-out spawn
    call: the block of the first is printed, the second is skipped. *)
Lemma final_report_witness :
  let rs := mkdict [("function_name", PStr "x");
                    ("profiling_mode", PStr "runtime_summary");
                    ("success", PBool true);
                    ("function_result", PDict [("result", PInt 42)]);
                    ("error", PNone);
                    ("input_data", PDict [("data", PStr "test")]);
                    ("strace_file", PStr "runtime_summary_x.txt")] in
  let rf := mkdict [("function_name", PStr "x");
                    ("profiling_mode", PStr "runtime_full");
                    ("success", PBool true);
                    ("function_result", PNone);
                    ("error", PStr "boom");
                    ("input_data", PDict [("data", PStr "test")]);
                    ("strace_file", PStr "runtime_full_x.txt")] in
  let fp := mkdict [("function_name", PStr "x");
                    ("profiling_mode", PStr "full_python");
                    ("success", PBool false);
                    ("error", PStr "Full Python execution timed out");
                    ("input_data", PDict [("data", PStr "test")])] in
  out (snd (show_results rs rf fp init_world))
  = [String LF "=== Final Results ===";
     String LF "Runtime-only profiling (full):";
     "  Function executed: ✗";
     "  Function error: boom"].
Proof.
  intros rs rf fp.
  rewrite (proj1 (final_report (Attach (calm raises_boom) false)
                    (Spawn (slow sample_function)) sample_function
                    init_world init_world rs rf fp
                    sample_tree (calm returns_42) (calm raises_boom)
                    (slow sample_function) init_world eq_refl eq_refl)).
  reflexivity.
Defined.

(** C8 as stated fails: when the attach-summary call succeeds and the two
    other calls fail, the last line [main] prints is the heading of the
    final results; the successful result is not reported. *)
Lemma successful_summary_not_reported :
  field (profile_function_in_runtime (calm returns_42) sample_target true
           init_world) "success" = Some (PBool true)
  /\ last (out (snd (main sample_tree (calm returns_42) (stubborn returns_42)
                          (slow sample_target) init_world)))
     = Some (String LF "=== Final Results ===").
Proof. split; reflexivity. Qed.

(** C9.  In the result of a call in either mode at most one of returned
    value, fault message and timeout is set: a fault message excludes a
    returned value, a timed-out call has no returned value and no message
    but the timeout's, and a returned value excludes both. *)
Theorem outcome_exclusive (c : call) (fi : function_info) (w : world)
  (d : result_dict) :
  returned (profile c fi w) = Some d ->
  (is_set d "error" = true -> is_set d "function_result" = false)
  /\ (timed_out c = true ->
      is_set d "function_result" = false
      /\ d !! "error" = Some (PStr "Full Python execution timed out"))
  /\ (is_set d "function_result" = true ->
      is_set d "error" = false /\ timed_out c = false).
Proof.
  destruct c as [e summary | e], w as [o f cl l].
  - destruct e as [pid popen wl sig ex1 term ex2].
    unfold profile, profile_function_in_runtime.
    run_premise; returned_dict d; dict_simpl; cbn [timed_out];
      intuition congruence.
  - destruct e as [tmp wr r1 r2 ev].
    unfold profile, profile_full_python.
    run_premise; returned_dict d; dict_simpl;
      cbn [timed_out spawn_timed_out s_run_summary s_run_full is_TimeoutExpired].
    all: try (intuition congruence).
    all: match goal with
         | H : parse_function_output ?scope ?cp = (?a, ?b) |- _ =>
             let E := fresh in
             destruct (parse_function_output_exclusive scope cp) as [E|E];
             rewrite H in E; cbn [fst snd] in E; subst
         end.
    all: cbn [is_not_None]; try (intuition congruence).
Qed.

(** C9, at a spawn-mode call that timed out. *)
Lemma outcome_exclusive_witness :
  is_set (mkdict [("function_name", PStr "x");
                  ("profiling_mode", PStr "full_python");
                  ("success", PBool false);
                  ("error", PStr "Full Python execution timed out");
                  ("input_data", PDict [("data", PStr "test")])])
         "function_result" = false.
Proof.
  exact (proj1 (outcome_exclusive (Spawn (slow sample_function)) sample_function
                  init_world _ eq_refl) eq_refl).
Defined.

(** C10.  A spawn-mode call whose two collector runs complete returns a
    result with [success] true, also when the child exited with a non-zero
    status (the result then carries an error message and no value); and
    when the child exited with status 0 but its output is not decoded as a
    value (evaluating the stripped line raises, or the line is empty or
    starts with [ERROR:] and is not evaluated at all), the returned value
    and the error are both [None]. *)
Theorem completed_runs_succeed (e : spawn_env) (fi : function_info) (w : world)
  (cp1 cp2 : CompletedProcess) :
  s_write e = None -> s_run_summary e = Ok cp1 -> s_run_full e = Ok cp2 ->
  let r := profile_full_python e fi w in
  let output_line := strip (stdout cp1) in
  field r "success" = Some (PBool true)
  /\ (returncode cp1 <> 0 ->
      field r "function_result" = Some PNone
      /\ exists msg, field r "error" = Some (PStr msg))
  /\ (returncode cp1 = 0 ->
      py_eval (s_eval e) output_line = None
      \/ output_line = EmptyString
      \/ startswith "ERROR:" output_line = true ->
      field r "function_result" = Some PNone
      /\ field r "error" = Some PNone).
Proof.
  intros Hw H1 H2 r output_line.
  pose proof (spawn_completed e fi w cp1 cp2 Hw H1 H2) as Hr.
  fold r in Hr.
  rewrite !(field_of_returned r _ _ Hr).
  split; [reflexivity|].
  change (mkdict _ !! "error")
    with (Some (snd (parse_function_output (s_eval e) cp1))).
  change (mkdict _ !! "function_result")
    with (Some (fst (parse_function_output (s_eval e) cp1))).
  unfold parse_function_output. fold output_line.
  split.
  - intros Hrc. apply Z.eqb_neq in Hrc. rewrite Hrc.
    case_match; cbn [fst snd]; (split; [reflexivity | eexists; reflexivity]).
  - intros -> [Hev | [Hempty | Herr]]; cbn [Z.eqb].
    + rewrite Hev. case_match; split; reflexivity.
    + rewrite Hempty. split; reflexivity.
    + rewrite Herr, andb_false_r. split; reflexivity.
Qed.

(** C10, at a child that exits with status 0 after printing the [repr] of
    an object that [eval] cannot read. *)
Lemma completed_runs_succeed_witness :
  let r := profile_full_python (transparent returns_nan sample_function)
             sample_function init_world in
  field r "success" = Some (PBool true)
  /\ field r "function_result" = Some PNone
  /\ field r "error" = Some PNone.
Proof.
  pose proof (completed_runs_succeed (transparent returns_nan sample_function)
                sample_function init_world _ _ eq_refl eq_refl eq_refl) as H.
  cbv zeta in H. destruct H as (H1 & _ & H3).
  split; [exact H1 | exact (H3 eq_refl (or_introl eq_refl))].
Defined.

(* ===================================================================== *)
(** ** Further properties of the profiler                                 *)
(* ===================================================================== *)

(** *** Attach mode: the collector and the handler *)

(** X1.  When the collector starts, the handler returns a value, the
    interrupt is delivered and the collector exits within the wait, an
    attach-mode call returns [success] true with exactly the handler's value
    (of any kind, no text round trip) and error [None]; it asks for the
    collector, one second of sleep, the handler, SIGINT and a wait of 10 s,
    in this order, and nothing else: the cleanup finds the collector exited
    and sends no SIGTERM. *)
Theorem attach_clean_stop (e : attach_env) (fi : function_info)
  (summary : bool) (w : world) (v : pyval) :
  a_popen e = None ->
  attach_workload_result e fi = Ok v ->
  a_send_signal e = None ->
  a_exits_on_sigint e = true ->
  let r := profile_function_in_runtime e fi summary w in
  field r "success" = Some (PBool true)
  /\ field r "function_result" = Some v
  /\ field r "error" = Some PNone
  /\ collector (snd r) = Some Exited
  /\ log (snd r) =
       log w ++ [EvPopen (attach_cmd (a_pid e) summary (name fi)); EvSleep 1;
                 EvCall (function_path fi) (_get_input_for_function (name fi));
                 EvSendSignal SIGINT; EvWait 10].
Proof.
  destruct e as [pid popen wl sig ex1 term ex2], w as [o f cl l].
  unfold attach_workload_result.
  cbn [a_popen a_workload a_send_signal a_exits_on_sigint a_terminate a_pid].
  intros -> Hr -> ->.
  unfold profile_function_in_runtime, attach_cmd.
  run_monad. rewrite Hr.
  run_all; destruct summary; repeat split; norm_log; reflexivity.
Qed.

(** X1, at a handler that returns [float('nan')]. *)
Lemma attach_clean_stop_witness :
  let r := profile_function_in_runtime (calm returns_nan) sample_function
             true init_world in
  field r "function_result" = Some (PObj "nan")
  /\ collector (snd r) = Some Exited.
Proof.
  pose proof (attach_clean_stop (calm returns_nan) sample_function true
                init_world (PObj "nan") eq_refl eq_refl eq_refl eq_refl) as H.
  cbv zeta in H. destruct H as (_ & H2 & _ & H4 & _).
  split; [exact H2 | exact H4].
Defined.

(** X2.  When [Popen] raises, an attach-mode call never loads the
    function and sends no signal: the only request is the [Popen] itself and
    no collector is recorded.  An [Exception] becomes a result with
    [success] false and its text as error; anything else leaves the call as
    raised. *)
Theorem attach_collector_unavailable (e : attach_env) (fi : function_info)
  (summary : bool) (w : world) (ex : pyexc) :
  a_popen e = Some ex ->
  let r := profile_function_in_runtime e fi summary w in
  log (snd r) = log w ++ [EvPopen (attach_cmd (a_pid e) summary (name fi))]
  /\ collector (snd r) = None
  /\ (is_Exception ex = true ->
      field r "success" = Some (PBool false)
      /\ field r "error" = Some (PStr (str_exc ex))
      /\ field r "function_result" = None)
  /\ (is_Exception ex = false -> fst r = Raise ex).
Proof.
  destruct e as [pid popen wl sig ex1 term ex2], w as [o f cl l].
  cbn [a_popen a_pid]. intros ->.
  unfold profile_function_in_runtime, attach_cmd.
  destruct ex; run_all; destruct summary; repeat split; norm_log;
    try reflexivity; intros; try discriminate; repeat split; reflexivity.
Qed.

(** X2, at a missing [strace] executable. *)
Lemma attach_collector_unavailable_witness :
  let e := {| a_pid := 4242;
              a_popen := Some (Exception "[Errno 2] No such file or directory: 'strace'");
              a_workload := returns_42; a_send_signal := None;
              a_exits_on_sigint := true; a_terminate := None;
              a_exits_on_terminate := true |} in
  let r := profile_function_in_runtime e sample_function true init_world in
  log (snd r)
  = [EvPopen ["strace"; "-c"; "-p"; "4242"; "-o"; "runtime_summary_x.txt"]]
  /\ field r "error"
     = Some (PStr "[Errno 2] No such file or directory: 'strace'").
Proof.
  intros e.
  pose proof (attach_collector_unavailable e sample_function true init_world
                _ eq_refl) as H.
  cbv zeta in H. destruct H as (H1 & _ & H3 & _).
  split; [exact H1 | exact (proj1 (proj2 (H3 eq_refl)))].
Defined.



(** X4.  What the cleanup of an attach-mode call meets (whether
    [terminate] raises, whether the collector exits within 5 s) never changes
    what the call returns or raises: the bare [except] swallows it. *)
Theorem cleanup_keeps_result (e : attach_env) (fi : function_info)
  (summary : bool) (w : world) (terminate_raises : option pyexc) (exits : bool) :
  fst (profile_function_in_runtime (with_cleanup e terminate_raises exits)
         fi summary w)
  = fst (profile_function_in_runtime e fi summary w).
Proof.
  destruct e as [pid popen wl sig ex1 term ex2], w as [o f cl l].
  unfold with_cleanup, profile_function_in_runtime.
  cbn [a_pid a_popen a_workload a_send_signal a_exits_on_sigint].
  run_all; reflexivity.
Qed.

(** *** Calls and the world they start from *)

(** X5.  When a target is found and nothing but [Exception]s is raised
    into the three calls, the requests of [main] are those of the
    attach-summary call, then those of the attach-full call, then those of
    the spawn call, each as the call makes them on its own, and nothing in
    between or after. *)
Theorem main_sequence (found : list (list string)) (e1 e2 : attach_env)
  (e3 : spawn_env) (w : world) (target_func : function_info) :
  List.find (fun func => contains "110.dynamic-html" (name func))
            (_discover_functions found) = Some target_func ->
  orderly (Attach e1 true) target_func = true ->
  orderly (Attach e2 false) target_func = true ->
  orderly (Spawn e3) target_func = true ->
  log (snd (main found e1 e2 e3 w))
  = log w ++ trace (Attach e1 true) target_func
          ++ trace (Attach e2 false) target_func
          ++ trace (Spawn e3) target_func.
Proof.
  intros Hf H1 H2 H3. unfold main. rewrite Hf. rewrite !print_then.
  match goal with
  | |- context [(profile_function_in_runtime e1 target_func true ≫= _) ?w0] =>
      destruct (orderly_call_runs (Attach e1 true) target_func w0 H1)
        as (d1 & w1 & E1 & W1 & _ & _ & L1)
  end.
  cbn [profile] in E1. rewrite (bind_returned _ _ _ _ _ E1), print_then.
  match goal with
  | |- context [(profile_function_in_runtime e2 target_func false ≫= _) ?w0] =>
      destruct (orderly_call_runs (Attach e2 false) target_func w0 H2)
        as (d2 & w2 & E2 & W2 & _ & _ & L2)
  end.
  cbn [profile] in E2. rewrite (bind_returned _ _ _ _ _ E2), !print_then.
  match goal with
  | |- context [(profile_full_python e3 target_func ≫= _) ?w0] =>
      destruct (orderly_call_runs (Spawn e3) target_func w0 H3)
        as (d3 & w3 & E3 & W3 & _ & _ & L3)
  end.
  cbn [profile] in E3. rewrite (bind_returned _ _ _ _ _ E3), print_then.
  rewrite (show_results_prints d1 d2 d3 _ W2 W3).
  destruct w as [o f cl l], w1 as [o1 f1 cl1 l1], w2 as [o2 f2 cl2 l2],
    w3 as [o3 f3 cl3 l3].
  cbn [set_out snd log out fs collector] in *.
  rewrite L3, L2, L1. norm_log. reflexivity.
Qed.

(** X5, at a spawn call whose first run exceeds its bound. *)
Lemma main_sequence_witness :
  log (snd (main sample_tree (calm returns_42) (calm raises_boom)
                 (slow sample_target) init_world))
  = [EvPopen ["strace"; "-c"; "-p"; "4242"; "-o";
              "runtime_summary_110.dynamic-html.txt"];
     EvSleep 1;
     EvCall "benchmarks/100.webapps/110.dynamic-html/python/function.py"
            (PDict [("username", PStr "testuser"); ("random_len", PInt 10)]);
     EvSendSignal SIGINT; EvWait 10;
     EvPopen ["strace"; "-p"; "4242"; "-o"; "runtime_full_110.dynamic-html.txt"];
     EvSleep 1;
     EvCall "benchmarks/100.webapps/110.dynamic-html/python/function.py"
            (PDict [("username", PStr "testuser"); ("random_len", PInt 10)]);
     EvSendSignal SIGINT; EvWait 10;
     EvCreate "/tmp/tmpk3v9x1.py";
     EvRun ["strace"; "-c"; "-f"; "-o"; "fullpython_summary_110.dynamic-html.txt";
            "python3"; "/tmp/tmpk3v9x1.py"] 60;
     EvUnlink "/tmp/tmpk3v9x1.py"].
Proof.
  exact (main_sequence sample_tree (calm returns_42) (calm raises_boom)
           (slow sample_target) init_world sample_target
           eq_refl eq_refl eq_refl eq_refl).
Defined.

(** *** Spawn mode: the script and the collector runs *)

(** X7.  Once its script is written, a spawn-mode call creates the
    script, runs the collector in summary form on it with a bound of 60 s,
    runs the collector in full form on the same script with the same bound
    only when the first run returned, and unlinks the script last, also when
    a run raised. *)
Theorem spawn_sequence (e : spawn_env) (fi : function_info) (w : world) :
  s_write e = None ->
  log (snd (profile_full_python e fi w))
  = log w
    ++ [EvCreate (s_tmp e);
        EvRun (spawn_summary_cmd (name fi) (s_tmp e)) 60]
    ++ match s_run_summary e with
       | Ok _ => [EvRun (spawn_full_cmd (name fi) (s_tmp e)) 60]
       | Raise _ => []
       end
    ++ [EvUnlink (s_tmp e)].
Proof.
  destruct e as [tmp wr r1 r2 ev], w as [o f cl l].
  cbn [s_write s_tmp s_run_summary]. intros ->.
  unfold profile_full_python, spawn_summary_cmd, spawn_full_cmd.
  run_monad.
  repeat (first [rewrite !script_present | step]; run_monad).
  all: cbn [app]; norm_log; reflexivity.
Qed.

(** X7, at two runs that complete. *)
Lemma spawn_sequence_witness :
  log (snd (profile_full_python (transparent returns_42 sample_function)
              sample_function init_world))
  = [EvCreate "/tmp/tmpk3v9x1.py";
     EvRun ["strace"; "-c"; "-f"; "-o"; "fullpython_summary_x.txt"; "python3";
            "/tmp/tmpk3v9x1.py"] 60;
     EvRun ["strace"; "-f"; "-o"; "fullpython_full_x.txt"; "python3";
            "/tmp/tmpk3v9x1.py"] 60;
     EvUnlink "/tmp/tmpk3v9x1.py"].
Proof.
  exact (spawn_sequence (transparent returns_42 sample_function)
           sample_function init_world eq_refl).
Defined.

(** X8.  Writing the script happens before the [try] of a spawn-mode
    call: when it raises, the call raises the same exception, whatever its
    class, no collector is run, nothing is unlinked and the file created for
    the script stays on disk. *)
Theorem spawn_script_not_written (e : spawn_env) (fi : function_info)
  (w : world) (ex : pyexc) :
  s_write e = Some ex ->
  let r := profile_full_python e fi w in
  fst r = Raise ex
  /\ log (snd r) = log w ++ [EvCreate (s_tmp e)]
  /\ is_Some (fs (snd r) !! s_tmp e).
Proof.
  destruct e as [tmp wr r1 r2 ev], w as [o f cl l].
  cbn [s_write s_tmp]. intros ->.
  unfold profile_full_python.
  run_all. split; [reflexivity | split; [reflexivity |]].
  rewrite lookup_insert_eq. eauto.
Qed.

(** X8, at a full disk. *)
Lemma spawn_script_not_written_witness :
  let r := profile_full_python (disk_full returns_42 sample_function)
             sample_function init_world in
  fst r = Raise (Exception "[Errno 28] No space left on device")
  /\ log (snd r) = [EvCreate "/tmp/tmpk3v9x1.py"]
  /\ is_Some (fs (snd r) !! "/tmp/tmpk3v9x1.py").
Proof.
  exact (spawn_script_not_written (disk_full returns_42 sample_function)
           sample_function init_world _ eq_refl).
Defined.

(** X9.  When a collector run of a spawn-mode call raises, the outcome
    of the first run, if there was one, is dropped: an [Exception] gives a
    result with [success] false, without function result and without the
    captured streams, whose error is the fixed timeout text for a
    [TimeoutExpired] and
    the text of the exception otherwise; anything else is raised by the call.
    The script is gone in every case. *)
Theorem spawn_collector_failure (e : spawn_env) (fi : function_info)
  (w : world) (ex : pyexc) :
  s_write e = None ->
  spawn_failure e = Some ex ->
  let r := profile_full_python e fi w in
  (is_Exception ex = true ->
   field r "success" = Some (PBool false)
   /\ field r "error"
      = Some (PStr (if is_TimeoutExpired ex
                    then "Full Python execution timed out"
                    else str_exc ex))
   /\ field r "function_result" = None
   /\ field r "stdout" = None
   /\ field r "stderr" = None)
  /\ (is_Exception ex = false -> fst r = Raise ex)
  /\ fs (snd r) !! s_tmp e = None.
Proof.
  destruct e as [tmp wr r1 r2 ev], w as [o f cl l].
  unfold spawn_failure. cbn [s_write s_tmp s_run_summary s_run_full].
  intros -> Hf.
  unfold profile_full_python.
  run_monad.
  destruct r1 as [cp1 | ex1]; [destruct r2 as [cp2 | ex2]; [discriminate Hf|]|].
  all: apply (inj Some) in Hf; subst.
  all: run_monad.
  all: destruct ex; run_monad; rewrite ?script_present; run_monad.
  all: split; [intros Hex; try discriminate Hex; repeat split; reflexivity|].
  all: split; [intros Hex; try discriminate Hex; reflexivity|].
  all: apply lookup_delete_eq.
Qed.

(** X9, at a second run that cannot be started. *)
Lemma spawn_collector_failure_witness :
  let r := profile_full_python (second_run_fails returns_42 sample_function)
             sample_function init_world in
  field r "success" = Some (PBool false)
  /\ field r "error"
     = Some (PStr "[Errno 2] No such file or directory: 'strace'")
  /\ field r "function_result" = None
  /\ field r "stdout" = None
  /\ field r "stderr" = None.
Proof.
  exact (proj1 (spawn_collector_failure
                  (second_run_fails returns_42 sample_function)
                  sample_function init_world _ eq_refl eq_refl) eq_refl).
Defined.

(** *** The transient script and the handler *)



(** X11.  When the handler ends the transient script without returning
    and without having written on standard output, the spawn-mode result has
    [success] true and function result [None].  For an [Exception] the
    error is the text of the fault with the white space around it removed
    (attach mode keeps that white space).  For a [SystemExit] it follows the
    exit status: [None] for status 0, and otherwise the message of a failed
    process with that status, followed, when it is not empty, by what was
    written on standard error (for [sys.exit('bye')]: status 1 and the
    message with a line end). *)
Theorem spawn_handler_fault (c : child_env) (e : spawn_env)
  (fi : function_info) (w : world) (ex : pyexc) (err : string)
  (cp2 : CompletedProcess) :
  s_write e = None ->
  s_run_summary e = Ok (run_transient_script c fi) ->
  s_run_full e = Ok cp2 ->
  plain_path (function_path fi) = true ->
  c_workload c (function_path fi) (_get_input_for_function (name fi))
  = mkRun EmptyString err (Raise ex) ->
  let r := profile_full_python e fi w in
  field r "success" = Some (PBool true)
  /\ field r "function_result" = Some PNone
  /\ field r "error"
     = Some (match ex with
             | SystemExit code =>
                 if exit_status code =? 0 then PNone
                 else PStr (process_failed (exit_status code)
                              (err +:+ exit_text code))
             | _ => PStr (strip (str_exc ex))
             end).
Proof.
  intros Hw H1 H2 Hp Hwl r.
  pose proof (spawn_completed e fi w _ cp2 Hw H1 H2) as Hr.
  fold r in Hr.
  rewrite !(field_of_returned r _ _ Hr).
  split; [reflexivity|].
  change (mkdict _ !! "error")
    with (Some (snd (parse_function_output (s_eval e)
                       (run_transient_script c fi)))).
  change (mkdict _ !! "function_result")
    with (Some (fst (parse_function_output (s_eval e)
                       (run_transient_script c fi)))).
  rewrite (run_script_plain c fi Hp) by (rewrite Hwl; reflexivity).
  rewrite Hwl.
  unfold script_outcome, parse_function_output.
  cbn [w_result w_stdout w_stderr].
  assert (Herror : forall m,
            let out := EmptyString +:+ "ERROR: " +:+ m +:+ NL in
            negb (String.eqb out EmptyString) && startswith "ERROR:" out = true
            /\ strip (nth 1 (split_once "ERROR:" out) EmptyString) = strip m).
  { intros m. cbv zeta. rewrite append_nil_l.
    change ("ERROR: " +:+ m +:+ NL)
      with (String "E" (String "R" (String "R" (String "O" (String "R"
             (String ":" (String " " (m +:+ NL)))))))).
    cbn [String.eqb startswith Ascii.eqb Bool.eqb negb andb split_once
         split_once_aux String.length drop_chars nth].
    split; [reflexivity|].
    unfold strip at 1. cbn [lstrip].
    change (is_space " ") with true. cbv iota.
    change (rstrip (lstrip (m +:+ NL))) with (strip (m +:+ NL)).
    apply strip_append_NL. }
  destruct ex as [msg | cmd t | code]; cbn [returncode stdout stderr Z.eqb].
  - destruct (Herror (str_exc (Exception msg))) as [Hc Hs].
    rewrite Hc, Hs. split; reflexivity.
  - destruct (Herror (str_exc (TimeoutExpired cmd t))) as [Hc Hs].
    rewrite Hc, Hs. split; reflexivity.
  - destruct (exit_status code =? 0) eqn:Hst.
    + split; reflexivity.
    + cbn [String.eqb negb andb fst snd]. split; [reflexivity|].
      unfold process_failed.
      destruct (String.eqb (err +:+ exit_text code) EmptyString); reflexivity.
Qed.

(** X11, at a fault with white space around its message, at
    [sys.exit('bye')] and at [sys.exit()]. *)
Lemma spawn_handler_fault_witness :
  (let r := profile_full_python (transparent raises_padded sample_function)
              sample_function init_world in
   field r "success" = Some (PBool true)
   /\ field r "function_result" = Some PNone
   /\ field r "error" = Some (PStr "disk full"))
  /\ (let r := profile_full_python (transparent exits_bye sample_function)
                 sample_function init_world in
      field r "error"
      = Some (PStr ("Process failed with exit code 1: bye" +:+ NL)))
  /\ (let r := profile_full_python (transparent exits_quietly sample_function)
                 sample_function init_world in
      field r "error" = Some PNone).
Proof.
  split; [|split].
  - exact (spawn_handler_fault (child raises_padded)
             (transparent raises_padded sample_function)
             sample_function init_world (Exception "  disk full ") EmptyString
             (run_transient_script (child raises_padded) sample_function)
             eq_refl eq_refl eq_refl eq_refl eq_refl).
  - exact (proj2 (proj2 (spawn_handler_fault (child exits_bye)
             (transparent exits_bye sample_function)
             sample_function init_world (SystemExit (ExitMsg "bye")) EmptyString
             (run_transient_script (child exits_bye) sample_function)
             eq_refl eq_refl eq_refl eq_refl eq_refl))).
  - exact (proj2 (proj2 (spawn_handler_fault (child exits_quietly)
             (transparent exits_quietly sample_function)
             sample_function init_world (SystemExit ExitNone) EmptyString
             (run_transient_script (child exits_quietly) sample_function)
             eq_refl eq_refl eq_refl eq_refl eq_refl))).
Defined.

(** *** The collector's output file *)

Lemma str_int_not_flag (z : Z) (c : ascii) :
  is_digit c = false -> String.eqb (str_int z) (String "-" (String c EmptyString)) = false.
Proof.
  intros Hc.
  assert (Hpos : forall n, 0 <= n ->
            forall t, String.eqb (str_int n) (String c t) = false).
  { intros n Hn t. destruct (str_int_head n Hn) as (a & s & -> & Ha).
    cbn [String.eqb]. destruct (Ascii.eqb_spec a c) as [->|_]; [congruence|reflexivity]. }
  destruct z as [|p|p].
  - reflexivity.
  - destruct (str_int_head (Z.pos p)) as (a & s & -> & Ha); [lia|].
    cbn [String.eqb]. destruct (Ascii.eqb_spec a "-") as [->|_]; [discriminate Ha|reflexivity].
  - rewrite str_int_neg. cbn [String.eqb]. rewrite Ascii.eqb_refl.
    apply Hpos. lia.
Qed.

(** X12.  In a result with [success] true the recorded artifact
    paths are the files the collector was told to write: the argument of
    [-o] in the command of the attach-mode call, which has [-c] exactly at
    summary granularity, and the arguments of [-o] in the two commands of a
    spawn-mode call, both of which end with the script. *)
Theorem recorded_artifact_is_collector_output (c : call) (fi : function_info)
  (w : world) (d : result_dict) :
  returned (profile c fi w) = Some d ->
  succeeded d = true ->
  match c with
  | Attach e summary =>
      exists cmd rest,
        log (snd (profile c fi w)) = log w ++ EvPopen cmd :: rest
        /\ PStr <$> output_option cmd = d !! "strace_file"
        /\ existsb (String.eqb "-c") cmd = summary
  | Spawn e =>
      exists cmd1 cmd2,
        log (snd (profile c fi w))
        = log w ++ [EvCreate (s_tmp e); EvRun cmd1 60; EvRun cmd2 60;
                    EvUnlink (s_tmp e)]
        /\ PStr <$> output_option cmd1 = d !! "strace_summary_file"
        /\ PStr <$> output_option cmd2 = d !! "strace_full_file"
        /\ last cmd1 = Some (s_tmp e) /\ last cmd2 = Some (s_tmp e)
  end.
Proof.
  destruct c as [e summary | e], w as [o f cl l].
  - destruct e as [pid popen wl sig ex1 term ex2].
    unfold profile, profile_function_in_runtime.
    run_premise; returned_dict d; intros Hs; try discriminate Hs.
    all: run_all; eexists _, _.
    all: (split; [norm_log; reflexivity|]).
    all: destruct summary; cbn [output_option existsb].
    all: rewrite ?(str_int_not_flag pid "o" eq_refl).
    all: rewrite ?(String.eqb_sym "-c" (str_int pid)),
           ?(str_int_not_flag pid "c" eq_refl).
    all: split; reflexivity.
  - destruct e as [tmp wr r1 r2 ev].
    unfold profile, profile_full_python.
    run_premise; returned_dict d; intros Hs; try discriminate Hs.
    all: run_monad; rewrite ?script_present; run_monad.
    all: eexists _, _; (split; [norm_log; reflexivity|]).
    all: repeat split; reflexivity.
Qed.

(** X12, at a full attach-mode call on workload [x]. *)
Lemma recorded_artifact_is_collector_output_witness :
  exists cmd rest,
    log (snd (profile (Attach (calm returns_42) false) sample_function init_world))
    = log init_world ++ EvPopen cmd :: rest
    /\ PStr <$> output_option cmd
       = mkdict [("function_name", PStr "x");
                 ("profiling_mode", PStr "runtime_full");
                 ("success", PBool true);
                 ("function_result", PDict [("result", PInt 42)]);
                 ("error", PNone);
                 ("input_data", PDict [("data", PStr "test")]);
                 ("strace_file", PStr "runtime_full_x.txt")] !! "strace_file"
    /\ existsb (String.eqb "-c") cmd = false.
Proof.
  exact (recorded_artifact_is_collector_output
           (Attach (calm returns_42) false) sample_function init_world _
           eq_refl eq_refl).
Defined.

(** *** What a call prints, and its block of the report *)

Ltac absurd_flag :=
  match goal with
  | H : succeeded _ = _ |- _ =>
      unfold succeeded in H; rewrite mkdict_lookup in H;
      cbn [assoc String.eqb Ascii.eqb Bool.eqb] in H; discriminate H
  end.

(** X13.  A call prints its three heading lines (name, path, input) and
    then the lines that tell where the collector's output was saved exactly
    when it returns a result with [success] true; it prints nothing else. *)
Theorem call_prints (c : call) (fi : function_info) :
  printed c fi
  = heading c fi
    ++ match returned (profile c fi init_world) with
       | Some d => if succeeded d then saved_lines c fi else []
       | None => []
       end.
Proof.
  unfold printed, init_world, heading, saved_lines.
  destruct c as [e summary | e].
  - destruct e as [pid popen wl sig ex1 term ex2].
    unfold profile, profile_function_in_runtime.
    run_all; destruct summary; try reflexivity; absurd_flag.
  - destruct e as [tmp wr r1 r2 ev].
    unfold profile, profile_full_python.
    run_monad.
    repeat (first [rewrite !script_present | step]; run_monad).
    all: try reflexivity; absurd_flag.
Qed.

(** X14.  The block [main] prints for the outcome of an attach-mode
    call that stopped its collector in order: a returned value other than
    [None] is marked as executed and shown; a handler that returned [None] or
    raised is marked as not executed; the error line appears only for a
    fault whose text is not empty. *)
Theorem attach_outcome_report (e : attach_env) (fi : function_info)
  (summary : bool) (w : world) (title : string) :
  a_popen e = None ->
  raises_only_Exception (attach_workload_result e fi) = true ->
  a_send_signal e = None ->
  a_exits_on_sigint e = true ->
  exists d w',
    profile_function_in_runtime e fi summary w = (Ok d, w')
    /\ report_detail title d w'
       = (Ok tt,
          set_out
            (fun o =>
               o ++ String LF title
                 :: match attach_workload_result e fi with
                    | Ok v =>
                        if is_not_None v
                        then ["  Function executed: ✓";
                              "  Function result: " +:+ py_str v]
                        else ["  Function executed: ✗"]
                    | Raise ex =>
                        "  Function executed: ✗"
                        :: (if String.eqb (str_exc ex) EmptyString then []
                            else ["  Function error: " +:+ str_exc ex])
                    end) w').
Proof.
  destruct e as [pid popen wl sig ex1 term ex2], w as [o f cl l].
  unfold attach_workload_result.
  cbn [a_popen a_workload a_send_signal a_exits_on_sigint].
  intros -> Hr -> ->.
  unfold profile_function_in_runtime.
  run_monad.
  destruct (w_result (wl (function_path fi) (_get_input_for_function (name fi))))
    as [v | ex]; [|destruct ex; try discriminate Hr]; run_monad.
  - eexists _, _. split; [reflexivity|].
    rewrite report_detail_prints by reflexivity.
    unfold report_block, detail_lines. dict_simpl.
    cbv [default id from_option]. cbn [truthy app].
    destruct (is_not_None v); reflexivity.
  - eexists _, _. split; [reflexivity|].
    rewrite report_detail_prints by reflexivity.
    unfold report_block, detail_lines. dict_simpl.
    cbv [default id from_option]. cbn [truthy app py_str str_exc].
    destruct (String.eqb msg EmptyString); reflexivity.
  - eexists _, _. split; [reflexivity|].
    rewrite report_detail_prints by reflexivity.
    unfold report_block, detail_lines. dict_simpl.
    cbv [default id from_option]. cbn [truthy app py_str].
    destruct (String.eqb _ EmptyString); reflexivity.
Qed.

(** X14, at a handler that returns [None]. *)
Lemma attach_outcome_report_witness :
  exists d w',
    profile_function_in_runtime (calm returns_None) sample_function false
      init_world = (Ok d, w')
    /\ report_detail "Runtime-only profiling (full):" d w'
       = (Ok tt,
          set_out
            (fun o =>
               o ++ [String LF "Runtime-only profiling (full):";
                     "  Function executed: ✗"]) w').
Proof.
  exact (attach_outcome_report (calm returns_None) sample_function false
           init_world "Runtime-only profiling (full):"
           eq_refl eq_refl eq_refl eq_refl).
Defined.

(** *** Discovery *)

Lemma has_char_append (c : ascii) (a b : string) :
  has_char c (a +:+ b) = has_char c a || has_char c b.
Proof.
  induction a as [|x a IH].
  - reflexivity.
  - rewrite append_cons. cbn [has_char]. rewrite IH, orb_assoc. reflexivity.
Qed.

Lemma sibling_input_no_slash (s : string) :
  has_char "/" s = false -> sibling_input s = "input.py".
Proof.
  destruct s as [|c s]; [reflexivity|].
  cbn [has_char sibling_input]. intros H.
  apply orb_false_elim in H as [Hc Hs]. rewrite Hs, Hc. reflexivity.
Qed.

Lemma sibling_input_step (p t : string) :
  has_char "/" p = false ->
  sibling_input (p +:+ "/" +:+ t) = p +:+ "/" +:+ sibling_input t.
Proof.
  induction p as [|c p IH]; intros Hp.
  - rewrite !append_nil_l.
    change ("/" +:+ t) with (String "/" t).
    change ("/" +:+ sibling_input t) with (String "/" (sibling_input t)).
    cbn [sibling_input]. destruct (has_char "/" t) eqn:Ht; [reflexivity|].
    rewrite (sibling_input_no_slash t Ht). reflexivity.
  - cbn [has_char] in Hp. apply orb_false_elim in Hp as [Hc Hp].
    change (String c p +:+ "/" +:+ t) with (String c (p +:+ "/" +:+ t)).
    change (String c p +:+ "/" +:+ sibling_input t)
      with (String c (p +:+ "/" +:+ sibling_input t)).
    cbn [sibling_input].
    rewrite has_char_append.
    change (has_char "/" ("/" +:+ t)) with true.
    rewrite orb_true_r, (IH Hp). reflexivity.
Qed.

Lemma sibling_input_join (p : string) (ps : list string) :
  ps <> [] -> Forall (fun q => has_char "/" q = false) (p :: ps) ->
  sibling_input (join "/" (p :: ps))
  = join "/" (removelast (p :: ps) ++ ["input.py"]).
Proof.
  revert p. induction ps as [|q ps IH]; intros p Hne Hall; [congruence|].
  apply Forall_cons_1 in Hall as [Hp Hall].
  destruct ps as [|q' ps].
  - apply Forall_cons_1 in Hall as [Hq _].
    cbn [join removelast app].
    rewrite (sibling_input_step p q Hp), (sibling_input_no_slash q Hq).
    reflexivity.
  - change (join "/" (p :: q :: q' :: ps))
      with (p +:+ "/" +:+ join "/" (q :: q' :: ps)).
    rewrite (sibling_input_step _ _ Hp), (IH q) by (congruence || exact Hall).
    change (removelast (p :: q :: q' :: ps))
      with (p :: removelast (q :: q' :: ps)).
    change (removelast (q :: q' :: ps)) with (q :: removelast (q' :: ps)).
    reflexivity.
Qed.

(** X15.  For an entry of the function list, built from the parts of a
    found path, the input path is the function path with its last component
    replaced by [input.py], the name holds no separator, and the function
    path reads root/category/name/rest. *)
Theorem discovered_paths (found : list (list string)) (fi : function_info) :
  Forall (Forall (fun part => has_char "/" part = false)) found ->
  In fi (_discover_functions found) ->
  input_path fi = sibling_input (function_path fi)
  /\ has_char "/" (name fi) = false
  /\ exists root rest,
       function_path fi
       = root +:+ "/" +:+ category fi +:+ "/" +:+ name fi +:+ "/" +:+ rest.
Proof.
  intros Hall Hin. unfold _discover_functions in Hin.
  apply in_flat_map in Hin as (parts & Hparts & Hfi).
  rewrite List.Forall_forall in Hall. pose proof (Hall parts Hparts) as Hp.
  destruct parts as [|p0 [|p1 [|p2 [|p3 tl]]]]; try (destruct Hfi; fail).
  cbn [length Nat.leb] in Hfi. destruct Hfi as [<- | []].
  cbn [name category function_path input_path nth].
  split; [|split].
  - symmetry. apply sibling_input_join; [discriminate | exact Hp].
  - apply Forall_cons_1 in Hp as [_ Hp]. apply Forall_cons_1 in Hp as [_ Hp].
    apply Forall_cons_1 in Hp as [H2 _]. exact H2.
  - exists p0, (join "/" (p3 :: tl)). reflexivity.
Qed.

(** X15, at the entry of [110.dynamic-html]. *)
Lemma discovered_paths_witness :
  input_path sample_target = sibling_input (function_path sample_target)
  /\ has_char "/" (name sample_target) = false
  /\ exists root rest,
       function_path sample_target
       = root +:+ "/" +:+ category sample_target +:+ "/"
         +:+ name sample_target +:+ "/" +:+ rest.
Proof.
  apply (discovered_paths sample_tree sample_target).
  - repeat constructor.
  - left. reflexivity.
Defined.

(** *** The whole run of [main] *)



(** X17.  When the attach-summary call raises, [main] raises the same
    exception at once: the two other calls are never made and no results are
    printed. *)
Theorem main_stops_at_first_raise (found : list (list string))
  (e1 e2 : attach_env) (e3 : spawn_env) (w : world)
  (target_func : function_info) (ex : pyexc) :
  List.find (fun func => contains "110.dynamic-html" (name func))
            (_discover_functions found) = Some target_func ->
  fst (profile (Attach e1 true) target_func init_world) = Raise ex ->
  let r := main found e1 e2 e3 w in
  fst r = Raise ex
  /\ log (snd r) = log w ++ trace (Attach e1 true) target_func
  /\ out (snd r)
     = out w ++ banner
       ++ ["Testing with function: " +:+ name target_func;
           String LF "1a. Profiling with runtime-only method (summary)..."]
       ++ printed (Attach e1 true) target_func.
Proof.
  intros Hf Hr. cbv zeta. unfold main. rewrite Hf. rewrite !print_then.
  match goal with
  | |- context [(profile_function_in_runtime e1 target_func true ≫= ?k) ?w0] =>
      pose proof (profile_frame (Attach e1 true) target_func w0) as (F & O & L);
      set (k0 := k)
  end.
  rewrite Hr in F. cbn [profile] in F, O, L.
  unfold mbind, M_bind, bind.
  destruct (profile_function_in_runtime e1 target_func true _) as [[d|ex'] w1].
  - discriminate F.
  - cbn [fst snd] in F, O, L |- *. apply (f_equal (fun r => match r with Raise x => x | Ok _ => ex end)) in F.
    subst ex'. destruct w as [o f cl l]. cbn [set_out snd log out fs collector] in *.
    rewrite O, L. unfold banner. norm_log. auto.
Qed.

(** X17, at a handler that calls [sys.exit('bye')]. *)
Lemma main_stops_at_first_raise_witness :
  let r := main sample_tree (calm exits_bye) (calm returns_42)
             (slow sample_target) init_world in
  fst r = Raise (SystemExit (ExitMsg "bye"))
  /\ log (snd r)
     = [EvPopen ["strace"; "-c"; "-p"; "4242"; "-o";
                 "runtime_summary_110.dynamic-html.txt"];
        EvSleep 1;
        EvCall "benchmarks/100.webapps/110.dynamic-html/python/function.py"
               (PDict [("username", PStr "testuser"); ("random_len", PInt 10)]);
        EvSendSignal SIGTERM; EvWait 5].
Proof.
  pose proof (main_stops_at_first_raise sample_tree (calm exits_bye)
                (calm returns_42) (slow sample_target) init_world sample_target
                (SystemExit (ExitMsg "bye")) eq_refl eq_refl) as H.
  cbv zeta in H. destruct H as (H1 & H2 & _).
  split; [exact H1 | exact H2].
Defined.

(** X18.  When the collector was started and [terminate] works, an
    attach-mode call leaves no collector running, whatever the handler and
    the interrupt do, also when the call raises. *)
Theorem collector_reaped (e : attach_env) (fi : function_info)
  (summary : bool) (w : world) :
  a_popen e = None ->
  a_terminate e = None ->
  a_exits_on_terminate e = true ->
  collector (snd (profile_function_in_runtime e fi summary w)) = Some Exited.
Proof.
  destruct e as [pid popen wl sig ex1 term ex2], w as [o f cl l].
  cbn [a_popen a_terminate a_exits_on_terminate]. intros -> -> ->.
  unfold profile_function_in_runtime.
  run_all; reflexivity.
Qed.

(** X18, at a collector that ignores the interrupt and a handler that exits. *)
Lemma collector_reaped_witness :
  collector (snd (profile_function_in_runtime (stubborn exits_bye)
                    sample_function true init_world)) = Some Exited.
Proof.
  exact (collector_reaped (stubborn exits_bye) sample_function true init_world
           eq_refl eq_refl eq_refl).
Defined.
